(** * dTest: the task-API client of [main.py]

    A shallow embedding of [src/main.py] (class [Client], function [run] and
    the [__main__] block) and the properties of its specification.

    The script talks to a server and may poll it forever, so a method is an
    interaction tree: its events are the HTTP requests it sends and what it
    writes to the console, its leaves the value it returns or the exception
    it raises.  [exec] runs such a tree against a server for a bounded
    number of steps and records what the client did.

    Contents: the Python values and builtins the script relies on; the HTTP
    layer and the effects; the class [Client]; [run] and the entry point;
    sequences of calls on one client; the vocabulary of the properties; how
    [exec] runs each construct; the polling loop; the properties C1 to C10;
    examples. *)

From Stdlib Require Import ZArith List String Ascii Bool Lia DecimalString PrimFloat.
From ITree Require Import ITree Eq.Shallow.
Import ListNotations.
Local Open Scope list_scope.
Local Open Scope string_scope.

Set Implicit Arguments.
Set Warnings "-register-all".

(** ** Python values and the builtins the script uses *)

Module Py.

(** What [Response.json()] and [json.loads] produce, and [None]. A JSON
    object is kept as its items in order: iteration over a dict yields the
    keys in that order. *)
Inductive value : Type :=
| VNone
| VBool (b : bool)
| VInt (z : Z)
| VFloat (x : float)
| VStr (s : string)
| VList (l : list value)
| VDict (d : list (string * value)).

(** The exceptions that can reach the script: from a subscript or an
    iteration ([TypeError], [KeyError]), from the transport
    ([RequestException]) and from JSON decoding ([JSONDecodeError]). *)
Inductive exn : Type :=
| TypeError
| KeyError (key : string)
| RequestException
| JSONDecodeError.

(** A computation without effects that returns or raises. *)
Definition result (A : Type) : Type := (exn + A)%type.

Definition bind {A B} (r : result A) (k : A -> result B) : result B :=
  match r with
  | inl e => inl e
  | inr a => k a
  end.

(** The library functions the script calls and this development does not
    spell out: [repr] of floats and containers, and the JSON decoder behind
    [json.loads] ([None] when the text is not JSON). *)
Class Runtime : Type := {
  repr : value -> string;
  json_loads : string -> option value
}.

Definition newline : string := String (ascii_of_nat 10) EmptyString.

(** [bool(v)], the test of [if v:]. *)
Definition truthy (v : value) : bool :=
  match v with
  | VNone => false
  | VBool b => b
  | VInt z => negb (z =? 0)%Z
  | VFloat x => negb (PrimFloat.eqb x PrimFloat.zero)
  | VStr s => match s with EmptyString => false | String _ _ => true end
  | VList l => match l with [] => false | _ :: _ => true end
  | VDict d => match d with [] => false | _ :: _ => true end
  end.

(** [str(v)], which is what a replacement field [{v}] of an f-string
    inserts. *)
Definition str `{Runtime} (v : value) : string :=
  match v with
  | VNone => "None"
  | VBool true => "True"
  | VBool false => "False"
  | VInt z => NilZero.string_of_int (Z.to_int z)
  | VStr s => s
  | VFloat _ | VList _ | VDict _ => repr v
  end.

Fixpoint lookup (key : string) (d : list (string * value)) : option value :=
  match d with
  | [] => None
  | (k, v) :: d' => if String.eqb k key then Some v else lookup key d'
  end.

(** [v[key]] for a string [key]: only a dict takes one. *)
Definition subscript (v : value) (key : string) : result value :=
  match v with
  | VDict d =>
      match lookup key d with
      | Some x => inr x
      | None => inl (KeyError key)
      end
  | _ => inl TypeError
  end.

(** The items [for r in v] visits. *)
Definition iter (v : value) : result (list value) :=
  match v with
  | VList l => inr l
  | VDict d => inr (map (fun kv => VStr (fst kv)) d)
  | VStr s => inr (map (fun a => VStr (String a EmptyString)) (list_ascii_of_string s))
  | _ => inl TypeError
  end.

(** [[f(x) for x in l]]: left to right, and the first exception ends it. *)
Fixpoint comprehension {A B} (f : A -> result B) (l : list A) : result (list B) :=
  match l with
  | [] => inr []
  | x :: l' =>
      match f x with
      | inl e => inl e
      | inr y =>
          match comprehension f l' with
          | inl e => inl e
          | inr ys => inr (y :: ys)
          end
      end
  end.

(** [json.loads(v)]. *)
Definition loads `{Runtime} (v : value) : result value :=
  match v with
  | VStr s =>
      match json_loads s with
      | Some x => inr x
      | None => inl JSONDecodeError
      end
  | _ => inl TypeError
  end.

End Py.

Import Py.

(** ** The HTTP layer ([requests]) *)

Inductive method : Type := GET | POST.

(** One call of [requests.get] or [requests.post]: the URL, the [headers=]
    argument and the [json=] argument. *)
Record request : Type := Request {
  meth : method;
  url : string;
  headers : list (string * string);
  json : option value
}.

(** What comes back: a response whose body decodes to [v], a response whose
    body is not JSON, or no response at all. *)
Inductive reply : Type :=
| Body (v : value)
| NotJSON
| NoReply.

(** [requests.get(...).json()] once the reply is known. *)
Definition decoded (r : reply) : result value :=
  match r with
  | Body v => inr v
  | NotJSON => inl JSONDecodeError
  | NoReply => inl RequestException
  end.

(** ** Effects *)

Variant scriptE : Type -> Type :=
| Send (rq : request) : scriptE reply
| Print (text : string) : scriptE unit
| Flush : scriptE unit
| Sleep (seconds : Z) : scriptE unit.

(** What the client did, in order. *)
Inductive action : Type :=
| Sent (rq : request)
| Printed (text : string)
| Flushed
| Slept (seconds : Z).

(** A server answers a request knowing everything the client did before. *)
Definition server : Type := list action -> request -> reply.

(** A method body: an interaction tree that returns or raises. *)
Definition py (A : Type) : Type := itree scriptE (result A).

Definition pure {A} (a : A) : py A := Ret (inr a).

Definition raise {A} (e : exn) : py A := Ret (inl e).

Definition lift {A} (r : result A) : py A := Ret r.

Definition perform {A} (e : scriptE A) : py A :=
  ITree.bind (ITree.trigger e) (fun a => Ret (inr a)).

(** Sequencing: an exception skips the rest. *)
Definition pbind {A B} (m : py A) (k : A -> py B) : py B :=
  ITree.bind m (fun r => match r with inl e => Ret (inl e) | inr a => k a end).

Declare Scope py_scope.
Delimit Scope py_scope with py.
Notation "x <- m ;; k" := (pbind m (fun x => k))
  (at level 61, m at next level, right associativity) : py_scope.
Notation "m ;; k" := (pbind m (fun _ => k))
  (at level 61, right associativity) : py_scope.

(** [while True: body]: [body] returns [Some a] at a [break] that leaves
    the loop with [a], and [None] when it reaches its end. *)
Definition while_true {A} (body : py (option A)) : py A :=
  ITree.iter
    (fun _ : unit =>
       ITree.bind body (fun r =>
         match r with
         | inl e => Ret (inr (inl e))
         | inr (Some a) => Ret (inr (inr a))
         | inr None => Ret (inl tt)
         end))
    tt.

(** [exec fuel srv log t] runs [t] against [srv], starting after the
    actions [log]. Every event and every turn of a loop costs one unit of
    fuel. It gives the outcome ([None] when the fuel ran out first), the
    actions so far and the fuel left. *)
Fixpoint exec {R} (fuel : nat) (srv : server) (log : list action)
  (t : itree scriptE R) : option R * list action * nat :=
  match observe t with
  | RetF r => (Some r, log, fuel)
  | TauF t' =>
      match fuel with
      | O => (None, log, O)
      | S n => exec n srv log t'
      end
  | VisF e k =>
      match fuel with
      | O => (None, log, O)
      | S n =>
          match e in scriptE X return (X -> itree scriptE R) -> _ with
          | Send rq => fun k => exec n srv (log ++ [Sent rq])%list (k (srv log rq))
          | Print s => fun k => exec n srv (log ++ [Printed s])%list (k tt)
          | Flush => fun k => exec n srv (log ++ [Flushed])%list (k tt)
          | Sleep z => fun k => exec n srv (log ++ [Slept z])%list (k tt)
          end k
      end
  end.

(** ** The client *)

Module Client.

(** The attributes of a [Client] object. The host and the API path are
    strings, the rest is what the caller passes and the server returns. *)
Record t : Type := Make {
  host : string;
  api_path : string;
  collaboration_id : value;
  username : value;
  password : value;
  access_token : value;
  refresh_token : value
}.

Definition __init__ (host : string) (collaboration_id username password : value)
  (api_path : string) : t :=
  {| host := host;
     api_path := api_path;
     collaboration_id := collaboration_id;
     username := username;
     password := password;
     access_token := VNone;
     refresh_token := VNone |}.

(** The default of [api_path] in [__init__]. *)
Definition default_api_path : string := "/api".

Definition set_access_token (self : t) (v : value) : t :=
  {| host := host self;
     api_path := api_path self;
     collaboration_id := collaboration_id self;
     username := username self;
     password := password self;
     access_token := v;
     refresh_token := refresh_token self |}.

Definition set_refresh_token (self : t) (v : value) : t :=
  {| host := host self;
     api_path := api_path self;
     collaboration_id := collaboration_id self;
     username := username self;
     password := password self;
     access_token := access_token self;
     refresh_token := v |}.

Definition _baseURL (self : t) : string := host self ++ api_path self.

Section Methods.
Context `{Runtime}.
Local Open Scope py_scope.

(** The [headers] dict of [get] and [post]. *)
Definition bearer (self : t) : list (string * string) :=
  [("Authorization", "Bearer " ++ str (access_token self))].

(** The request and the credentials of [authenticate]. *)
Definition token_request (self : t) : request :=
  {| meth := POST;
     url := host self ++ api_path self ++ "/token/user";
     headers := [];
     json := Some (VDict [("username", username self); ("password", password self)]) |}.

(** [authenticate] assigns the two attributes one after the other: when the
    second subscript raises, the first assignment has been made. It returns
    the object as the call leaves it together with the call's outcome. *)
Definition authenticate (self : t) : itree scriptE (t * result unit) :=
  ITree.bind (ITree.trigger (Send (token_request self))) (fun resp =>
    match decoded resp with
    | inl e => Ret (self, inl e)
    | inr r =>
        match subscript r "access_token" with
        | inl e => Ret (self, inl e)
        | inr a =>
            let self := set_access_token self a in
            match subscript r "refresh_token" with
            | inl e => Ret (self, inl e)
            | inr b => Ret (set_refresh_token self b, inr tt)
            end
        end
    end).

Definition get (self : t) (url : string) : py value :=
  let headers := bearer self in
  ITree.bind
    (ITree.trigger (Send {| meth := GET; url := _baseURL self ++ url;
                            headers := headers; json := None |}))
    (fun result => Ret (decoded result)).

Definition post (self : t) (url : string) (task : value) : py value :=
  let headers := bearer self in
  ITree.bind
    (ITree.trigger (Send {| meth := POST; url := _baseURL self ++ url;
                            headers := headers; json := Some task |}))
    (fun result => Ret (decoded result)).

Definition create_task (self : t) (task : value) : py value :=
  post self "/task" task.

(** The body of the polling loop. *)
Definition poll (self : t) (path : string) : py (option unit) :=
  result <- get self path ;;
  complete <- lift (subscript result "complete") ;;
  if truthy complete then pure (Some tt)
  else
    perform (Print ".") ;;
    perform Flush ;;
    perform (Sleep 5) ;;
    pure None.

(** The list comprehension over [result['results']]. *)
Definition deserialize (result : value) : Py.result (list value) :=
  Py.bind (subscript result "results") (fun results =>
  Py.bind (iter results) (fun entries =>
  comprehension (fun r => Py.bind (subscript r "result") loads) entries)).

Definition wait_for_results (self : t) (task_id : value) : py (list value) :=
  let path := "/task/" ++ str task_id in
  while_true (poll self path) ;;
  perform (Print newline) ;;
  result <- get self (path ++ "?include=results") ;;
  lift (deserialize result).

End Methods.

End Client.

(** ** The script *)

Section Script.
Context `{Runtime}.
Local Open Scope py_scope.

(** The task [run] submits. *)
Definition task_of (host api_path : string) (collaboration_id : value) : value :=
  VDict
    [("name", VStr "RPC call from Python");
     ("image", VStr "docker-registry.distributedlearning.ai/dl_test");
     ("collaboration_id", collaboration_id);
     ("input",
      VDict
        [("role", VStr "master");
         ("host", VStr host);
         ("api_path", VStr api_path);
         ("collaboration_id", collaboration_id)]);
     ("database", VStr "");
     ("description", VStr "")].

Definition run (host api_path : string) (username password collaboration_id : value)
  : py (list value) :=
  let client := Client.__init__ host collaboration_id username password api_path in
  ITree.bind (Client.authenticate client) (fun '(client, authenticated) =>
    match authenticated with
    | inl e => Ret (inl e)
    | inr _ =>
        let task := task_of host api_path collaboration_id in
        response <- Client.create_task client task ;;
        task_id <- lift (subscript response "id") ;;
        Client.wait_for_results client task_id
    end).

(** A call of [run] with positional arguments (the words of a command
    line): Python binds them to the five parameters before the body starts,
    and raises [TypeError] when their number is not five. *)
Definition call_run (args : list string) : py (list value) :=
  match args with
  | [host; api_path; username; password; collaboration_id] =>
      run host api_path (VStr username) (VStr password) (VStr collaboration_id)
  | _ => raise TypeError
  end.

(** The [__main__] block: [run()]. *)
Definition main : py (list value) := call_run [].

End Script.

(** ** Callers of the client *)

(** A caller's use of one [Client] object: a sequence of method calls. The
    caller catches what a call raises and goes on with the object as the
    call left it. *)
Inductive call : Type :=
| Authenticate
| Get (url : string)
| Post (url : string) (task : value)
| CreateTask (task : value)
| WaitForResults (task_id : value).

Section Session.
Context `{Runtime}.

Definition invoke (self : Client.t) (c : call) : itree scriptE Client.t :=
  match c with
  | Authenticate => ITree.bind (Client.authenticate self) (fun r => Ret (fst r))
  | Get url => ITree.bind (Client.get self url) (fun _ => Ret self)
  | Post url task => ITree.bind (Client.post self url task) (fun _ => Ret self)
  | CreateTask task => ITree.bind (Client.create_task self task) (fun _ => Ret self)
  | WaitForResults task_id =>
      ITree.bind (Client.wait_for_results self task_id) (fun _ => Ret self)
  end.

Fixpoint session (self : Client.t) (calls : list call) : itree scriptE Client.t :=
  match calls with
  | [] => Ret self
  | c :: calls' => ITree.bind (invoke self c) (fun self' => session self' calls')
  end.

End Session.

(** An instance for the examples: it decodes the JSON literals [null],
    [true], [false] and the decimal integers; the examples print no float
    and no container. *)
Definition literal_loads (s : string) : option value :=
  if String.eqb s "null" then Some VNone
  else if String.eqb s "true" then Some (VBool true)
  else if String.eqb s "false" then Some (VBool false)
  else
    match NilZero.int_of_string s with
    | Some d => if String.eqb (NilZero.string_of_int d) s then Some (VInt (Z.of_int d)) else None
    | None => None
    end.

Definition literals : Runtime :=
  {| repr := fun _ => "?"; json_loads := literal_loads |}.

(** A server for the examples: it hands out the tokens "A" and "B", gives a
    submitted task the id 5, and reports a task complete once the client has
    nine actions behind it. *)
Definition demo_server : server :=
  fun log rq =>
    match meth rq, headers rq with
    | POST, [] =>
        Body (VDict [("access_token", VStr "A"); ("refresh_token", VStr "B")])
    | POST, _ => Body (VDict [("id", VInt 5)])
    | GET, _ =>
        if String.eqb (url rq) "http://x/api/task/5?include=results"
        then Body (VDict [("results",
                           VList [VDict [("result", VStr "1")];
                                  VDict [("result", VStr "null")];
                                  VDict [("result", VStr "-20")]])])
        else Body (VDict [("complete", VBool (Nat.leb 9 (List.length log)))])
    end.

Definition demo_client : Client.t :=
  Client.__init__ "http://x" (VInt 1) (VStr "u") (VStr "p") "/api".

(** A token endpoint that hands out "A" with a refresh token to the first
    request and "B" without a refresh token afterwards. *)
Definition stale_server : server :=
  fun log rq =>
    match log with
    | [] => Body (VDict [("access_token", VStr "A"); ("refresh_token", VStr "R")])
    | _ :: _ => Body (VDict [("access_token", VStr "B")])
    end.

(** A server on which the task never completes. *)
Definition idle_server : server :=
  fun _ _ => Body (VDict [("complete", VBool false)]).

(** A server whose second status reply has no ['complete']. *)
Definition broken_server : server :=
  fun log _ =>
    if Nat.ltb (List.length log) 4
    then Body (VDict [("complete", VBool false)])
    else Body (VDict [("id", VInt 5)]).

(** A server on which the task is complete at once and the second result
    is not JSON. *)
Definition garbled_server : server :=
  fun _ rq =>
    if String.eqb (url rq) "http://x/api/task/5?include=results"
    then Body (VDict [("results",
                       VList [VDict [("result", VStr "1")];
                              VDict [("result", VStr "oops")];
                              VDict [("result", VStr "2")]])])
    else Body (VDict [("complete", VBool true)]).

(** ** Vocabulary of the properties *)

Section Vocabulary.
Context `{Runtime}.

Definition get_request (self : Client.t) (url : string) : request :=
  {| meth := GET; url := Client._baseURL self ++ url;
     headers := Client.bearer self; json := None |}.

Definition post_request (self : Client.t) (url : string) (task : value) : request :=
  {| meth := POST; url := Client._baseURL self ++ url;
     headers := Client.bearer self; json := Some task |}.

Definition status_path (task_id : value) : string := "/task/" ++ str task_id.

Definition status_request (self : Client.t) (task_id : value) : request :=
  get_request self (status_path task_id).

Definition results_request (self : Client.t) (task_id : value) : request :=
  get_request self (status_path task_id ++ "?include=results").

(** What one poll makes of the server's reply: the completion flag as the
    [if] reads it, or the exception that ends the call. *)
Definition verdict (r : reply) : result bool :=
  Py.bind (decoded r) (fun v =>
  Py.bind (subscript v "complete") (fun flag => inr (truthy flag))).

(** The actions of one turn of the loop that found the task not complete,
    and of [k] such turns. *)
Definition round (self : Client.t) (task_id : value) : list action :=
  [Sent (status_request self task_id); Printed "."; Flushed; Slept 5].

Fixpoint rounds (self : Client.t) (task_id : value) (k : nat) : list action :=
  match k with
  | O => []
  | S k' => (round self task_id ++ rounds self task_id k')%list
  end.

(** The requests of a log that went to the URL [u]. *)
Definition sent_to (u : string) (a : action) : bool :=
  match a with
  | Sent rq => String.eqb (url rq) u
  | _ => false
  end.

Definition count_sent_to (u : string) (l : list action) : nat :=
  List.length (filter (sent_to u) l).

(** What [authenticate] returns, given the token endpoint's reply. *)
Definition authenticated (self : Client.t) (resp : reply) : Client.t * result unit :=
  match decoded resp with
  | inl e => (self, inl e)
  | inr r =>
      match subscript r "access_token" with
      | inl e => (self, inl e)
      | inr a =>
          match subscript r "refresh_token" with
          | inl e => (Client.set_access_token self a, inl e)
          | inr b =>
              (Client.set_refresh_token (Client.set_access_token self a) b, inr tt)
          end
      end
  end.

(** A request made with the client's current [headers] dict. *)
Definition authorized (self : Client.t) (a : action) : Prop :=
  match a with
  | Sent rq => headers rq = Client.bearer self
  | _ => True
  end.




(** A reply with another value under ['refresh_token'], when it has that
    key; and a server that differs from [srv] in that value only, in its
    reply to the first request of a run. *)
Fixpoint set_item (key : string) (v : value) (d : list (string * value))
  : list (string * value) :=
  match d with
  | [] => []
  | (k, x) :: d' =>
      if String.eqb k key then (k, v) :: d' else (k, x) :: set_item key v d'
  end.

Definition with_refresh_token (b : value) (resp : reply) : reply :=
  match resp with
  | Body (VDict d) => Body (VDict (set_item "refresh_token" b d))
  | _ => resp
  end.

Definition refreshed (b : value) (srv : server) : server :=
  fun log rq =>
    match log with
    | [] => with_refresh_token b (srv log rq)
    | _ :: _ => srv log rq
    end.


(** What a log wrote to the console, and how many seconds it slept. *)
Fixpoint stdout (l : list action) : string :=
  match l with
  | [] => ""
  | Printed text :: l' => text ++ stdout l'
  | _ :: l' => stdout l'
  end.

Fixpoint slept (l : list action) : Z :=
  match l with
  | [] => 0%Z
  | Slept seconds :: l' => (seconds + slept l')%Z
  | _ :: l' => slept l'
  end.

Fixpoint dots (k : nat) : string :=
  match k with
  | O => ""
  | S k' => "." ++ dots k'
  end.

(** An action that is no request, or one of the two requests of
    [wait_for_results]. *)
Definition polls_only (self : Client.t) (task_id : value) (a : action) : Prop :=
  match a with
  | Sent rq => rq = status_request self task_id \/ rq = results_request self task_id
  | _ => True
  end.

(** What one entry of the results gives: [json.loads(r['result'])]. *)
Definition entry_value (r : value) : result value :=
  Py.bind (subscript r "result") loads.


Section Monitor.
Variables (srv : server) (stores : reply -> option value).




End Monitor.

End Vocabulary.

(** ** How [exec] runs the constructs of the embedding *)

Section Exec.
Context {R : Type}.
Implicit Types (srv : server) (log : list action) (fuel : nat).

Lemma exec_eq fuel srv log (t : itree scriptE R) :
  exec fuel srv log t =
  match observe t with
  | RetF r => (Some r, log, fuel)
  | TauF t' =>
      match fuel with
      | O => (None, log, O)
      | S n => exec n srv log t'
      end
  | VisF e k =>
      match fuel with
      | O => (None, log, O)
      | S n =>
          match e in scriptE X return (X -> itree scriptE R) -> _ with
          | Send rq => fun k => exec n srv (log ++ [Sent rq])%list (k (srv log rq))
          | Print s => fun k => exec n srv (log ++ [Printed s])%list (k tt)
          | Flush => fun k => exec n srv (log ++ [Flushed])%list (k tt)
          | Sleep z => fun k => exec n srv (log ++ [Slept z])%list (k tt)
          end k
      end
  end.
Proof. destruct fuel; reflexivity. Qed.

Lemma exec_observe fuel srv log (t u : itree scriptE R) :
  observe t = observe u -> exec fuel srv log t = exec fuel srv log u.
Proof. intros E. rewrite (exec_eq fuel srv log t), (exec_eq fuel srv log u), E. reflexivity. Qed.

Lemma exec_Ret fuel srv log (r : R) : exec fuel srv log (Ret r) = (Some r, log, fuel).
Proof. rewrite exec_eq. reflexivity. Qed.

Lemma exec_Tau fuel srv log (t : itree scriptE R) :
  exec (S fuel) srv log (Tau t) = exec fuel srv log t.
Proof. rewrite exec_eq. reflexivity. Qed.

End Exec.

Section ExecBind.
Context {A B : Type}.
Implicit Types (srv : server) (log : list action) (fuel : nat).

Lemma exec_bind (t : itree scriptE A) (k : A -> itree scriptE B) fuel srv log :
  exec fuel srv log (ITree.bind t k) =
  match exec fuel srv log t with
  | (Some a, log', fuel') => exec fuel' srv log' (k a)
  | (None, log', fuel') => (None, log', fuel')
  end.
Proof.
  revert t log. induction fuel as [|n IH]; intros t log.
  - rewrite (exec_eq 0 srv log (ITree.bind t k)), (exec_eq 0 srv log t), observe_bind.
    destruct (observe t); reflexivity.
  - rewrite (exec_eq (S n) srv log (ITree.bind t k)), (exec_eq (S n) srv log t), observe_bind.
    destruct (observe t) as [r|t'|X e h].
    + rewrite (exec_eq (S n) srv log (k r)). reflexivity.
    + apply IH.
    + destruct e; apply IH.
Qed.

Lemma exec_trigger (e : scriptE A) (k : A -> itree scriptE B) fuel srv log :
  exec (S fuel) srv log (ITree.bind (ITree.trigger e) k) =
  match e in scriptE X return (X -> itree scriptE B) -> _ with
  | Send rq => fun k => exec fuel srv (log ++ [Sent rq])%list (k (srv log rq))
  | Print s => fun k => exec fuel srv (log ++ [Printed s])%list (k tt)
  | Flush => fun k => exec fuel srv (log ++ [Flushed])%list (k tt)
  | Sleep z => fun k => exec fuel srv (log ++ [Slept z])%list (k tt)
  end k.
Proof.
  rewrite exec_eq, observe_bind. cbn.
  destruct e; apply exec_observe; reflexivity.
Qed.

Lemma exec_trigger_O (e : scriptE A) (k : A -> itree scriptE B) srv log :
  exec 0 srv log (ITree.bind (ITree.trigger e) k) = (None, log, 0).
Proof. rewrite exec_eq, observe_bind. reflexivity. Qed.

End ExecBind.

Section ExecPy.
Context {A B : Type}.
Implicit Types (srv : server) (log : list action) (fuel : nat).

Lemma exec_pbind (m : py A) (k : A -> py B) fuel srv log :
  exec fuel srv log (pbind m k) =
  match exec fuel srv log m with
  | (Some (inr a), log', fuel') => exec fuel' srv log' (k a)
  | (Some (inl e), log', fuel') => (Some (inl e), log', fuel')
  | (None, log', fuel') => (None, log', fuel')
  end.
Proof.
  unfold pbind. rewrite exec_bind.
  destruct (exec fuel srv log m) as [[[[e|a]|] log'] fuel']; try reflexivity.
  apply exec_Ret.
Qed.

Lemma exec_while_true (body : py (option A)) fuel srv log :
  exec fuel srv log (while_true body) =
  match exec fuel srv log body with
  | (Some (inl e), log', fuel') => (Some (inl e), log', fuel')
  | (Some (inr (Some a)), log', fuel') => (Some (inr a), log', fuel')
  | (Some (inr None), log', O) => (None, log', O)
  | (Some (inr None), log', S fuel') => exec fuel' srv log' (while_true body)
  | (None, log', fuel') => (None, log', fuel')
  end.
Proof.
  pose (step := fun _ : unit =>
    ITree.bind body (fun r : result (option A) =>
      match r with
      | inl e => Ret (inr (inl e))
      | inr (Some a) => Ret (inr (inr a))
      | inr None => Ret (inl tt)
      end) : itree scriptE (unit + result A)).
  change (while_true body) with (ITree.iter step tt).
  rewrite (exec_observe fuel srv log (ITree.iter step tt)
    (ITree.bind (step tt)
       (fun lr => match lr with
                  | inl l => Tau (ITree.iter step l)
                  | inr r => Ret r
                  end))) by reflexivity.
  unfold step at 1. rewrite !exec_bind.
  destruct (exec fuel srv log body) as [[[[e|[a|]]|] log'] fuel']; try reflexivity.
  - rewrite !exec_Ret. reflexivity.
  - rewrite !exec_Ret. reflexivity.
  - rewrite exec_Ret. destruct fuel'.
    + rewrite exec_eq. reflexivity.
    + apply exec_Tau.
Qed.

End ExecPy.

Section ExecPerform.
Implicit Types (srv : server) (log : list action) (fuel : nat).

Lemma exec_perform_O {A} (e : scriptE A) srv log :
  exec 0 srv log (perform e) = (None, log, 0).
Proof. apply exec_trigger_O. Qed.

Lemma exec_print s fuel srv log :
  exec (S fuel) srv log (perform (Print s)) = (Some (inr tt), (log ++ [Printed s])%list, fuel).
Proof. unfold perform. rewrite exec_trigger. apply exec_Ret. Qed.

Lemma exec_flush fuel srv log :
  exec (S fuel) srv log (perform Flush) = (Some (inr tt), (log ++ [Flushed])%list, fuel).
Proof. unfold perform. rewrite exec_trigger. apply exec_Ret. Qed.

Lemma exec_sleep z fuel srv log :
  exec (S fuel) srv log (perform (Sleep z)) = (Some (inr tt), (log ++ [Slept z])%list, fuel).
Proof. unfold perform. rewrite exec_trigger. apply exec_Ret. Qed.

Lemma exec_lift {A} (r : result A) fuel srv log :
  exec fuel srv log (lift r) = (Some r, log, fuel).
Proof. apply exec_Ret. Qed.

Lemma exec_pure {A} (a : A) fuel srv log :
  exec fuel srv log (pure a) = (Some (inr a), log, fuel).
Proof. apply exec_Ret. Qed.

End ExecPerform.

(** ** One call of each method *)

Section ExecClient.
Context `{Runtime}.
Implicit Types (srv : server) (log : list action) (fuel : nat) (self : Client.t).

Lemma exec_get self url fuel srv log :
  exec (S fuel) srv log (Client.get self url) =
  (Some (decoded (srv log (get_request self url))),
   (log ++ [Sent (get_request self url)])%list, fuel).
Proof. unfold Client.get. rewrite exec_trigger. apply exec_Ret. Qed.

Lemma exec_get_O self url srv log :
  exec 0 srv log (Client.get self url) = (None, log, 0).
Proof. apply exec_trigger_O. Qed.

Lemma exec_post self url task fuel srv log :
  exec (S fuel) srv log (Client.post self url task) =
  (Some (decoded (srv log (post_request self url task))),
   (log ++ [Sent (post_request self url task)])%list, fuel).
Proof. unfold Client.post. rewrite exec_trigger. apply exec_Ret. Qed.

Lemma exec_post_O self url task srv log :
  exec 0 srv log (Client.post self url task) = (None, log, 0).
Proof. apply exec_trigger_O. Qed.

Lemma exec_authenticate self fuel srv log :
  exec (S fuel) srv log (Client.authenticate self) =
  (Some (authenticated self (srv log (Client.token_request self))),
   (log ++ [Sent (Client.token_request self)])%list, fuel).
Proof.
  unfold Client.authenticate, authenticated. rewrite exec_trigger.
  destruct (decoded _) as [e|r]; [apply exec_Ret|].
  destruct (subscript r "access_token") as [e|a]; [apply exec_Ret|].
  destruct (subscript r "refresh_token") as [e|b]; apply exec_Ret.
Qed.

Lemma exec_authenticate_O self srv log :
  exec 0 srv log (Client.authenticate self) = (None, log, 0).
Proof. apply exec_trigger_O. Qed.

End ExecClient.

(** ** The polling loop *)

Section Polling.
Context `{Runtime}.
Variables (self : Client.t) (task_id : value).
Implicit Types (srv : server) (log : list action) (fuel : nat).

Local Abbreviation status := (status_request self task_id).
Local Abbreviation loop := (while_true (Client.poll self (status_path task_id))).

Lemma exec_poll fuel srv log :
  exec (S fuel) srv log (Client.poll self (status_path task_id)) =
  match verdict (srv log status) with
  | inl e => (Some (inl e), (log ++ [Sent status])%list, fuel)
  | inr true => (Some (inr (Some tt)), (log ++ [Sent status])%list, fuel)
  | inr false =>
      match fuel with
      | S (S (S m)) => (Some (inr None), (log ++ round self task_id)%list, m)
      | _ => (None, (log ++ firstn (S fuel) (round self task_id))%list, 0)
      end
  end.
Proof.
  unfold Client.poll, verdict, round.
  rewrite exec_pbind, exec_get.
  change (get_request self (status_path task_id)) with status.
  destruct (decoded (srv log status)) as [e|v]; cbn [Py.bind]; [reflexivity|].
  rewrite exec_pbind, exec_lift.
  destruct (subscript v "complete") as [e|flag]; cbn [Py.bind]; [reflexivity|].
  destruct (truthy flag); [apply exec_pure|].
  rewrite exec_pbind.
  destruct fuel as [|fuel]; [rewrite exec_perform_O; reflexivity|].
  rewrite exec_print, exec_pbind, <- app_assoc. cbn [app].
  destruct fuel as [|fuel]; [rewrite exec_perform_O; reflexivity|].
  rewrite exec_flush, exec_pbind, <- app_assoc. cbn [app].
  destruct fuel as [|fuel]; [rewrite exec_perform_O; reflexivity|].
  rewrite exec_sleep, exec_pure, <- app_assoc. reflexivity.
Qed.

Lemma exec_loop_O srv log : exec 0 srv log loop = (None, log, 0).
Proof.
  rewrite exec_while_true. unfold Client.poll.
  rewrite exec_pbind, exec_get_O. reflexivity.
Qed.

Lemma exec_loop fuel srv log :
  exec (S fuel) srv log loop =
  match verdict (srv log status) with
  | inl e => (Some (inl e), (log ++ [Sent status])%list, fuel)
  | inr true => (Some (inr tt), (log ++ [Sent status])%list, fuel)
  | inr false =>
      match fuel with
      | S (S (S (S m))) => exec m srv (log ++ round self task_id)%list loop
      | _ => (None, (log ++ firstn (S fuel) (round self task_id))%list, 0)
      end
  end.
Proof.
  rewrite exec_while_true, exec_poll.
  destruct (verdict (srv log status)) as [e|[|]]; try reflexivity.
  destruct fuel as [|[|[|[|m]]]]; reflexivity.
Qed.

(** [k] polls that found the task not complete cost five units each. *)
Lemma exec_loop_pending k : forall srv log fuel,
  (forall i, i < k -> verdict (srv (log ++ rounds self task_id i)%list status) = inr false) ->
  exec (5 * k + fuel) srv log loop =
  exec fuel srv (log ++ rounds self task_id k)%list loop.
Proof.
  induction k as [|k IH]; intros srv log fuel P.
  - cbn [rounds]. rewrite app_nil_r. reflexivity.
  - replace (5 * S k + fuel) with (S (S (S (S (S (5 * k + fuel)))))) by lia.
    rewrite exec_loop.
    generalize (P 0 ltac:(lia)). cbn [rounds]. rewrite app_nil_r. intros ->.
    rewrite IH.
    + rewrite <- app_assoc. reflexivity.
    + intros i Hi. rewrite <- app_assoc. apply (P (S i)). lia.
Qed.

(** Every run of the loop, whatever the server and the fuel: some number
    [k] of polls found the task not complete, and then either the fuel ran
    out within the next turn, or one more poll ended the loop. *)
Lemma loop_shape fuel : forall srv log,
  exists k,
    (forall i, i < k ->
       verdict (srv (log ++ rounds self task_id i)%list status) = inr false) /\
    ((exists j, exec fuel srv log loop =
                (None, (log ++ rounds self task_id k ++ firstn j (round self task_id))%list, 0))
     \/
     (exists r n,
        exec fuel srv log loop =
        (Some r, (log ++ rounds self task_id k ++ [Sent status])%list, n) /\
        verdict (srv (log ++ rounds self task_id k)%list status) =
        match r with inl e => inl e | inr _ => inr true end)).
Proof.
  induction fuel as [fuel IH] using lt_wf_ind. intros srv log.
  destruct fuel as [|fuel].
  - exists 0. split; [intros i Hi; lia|]. left. exists 0.
    rewrite exec_loop_O. cbn. rewrite app_nil_r. reflexivity.
  - rewrite exec_loop.
    destruct (verdict (srv log status)) as [e|[|]] eqn:V.
    + exists 0. split; [intros i Hi; lia|]. right. exists (inl e), fuel.
      cbn [rounds app]. rewrite app_nil_r. auto.
    + exists 0. split; [intros i Hi; lia|]. right. exists (inr tt), fuel.
      cbn [rounds app]. rewrite app_nil_r. auto.
    + assert (Short : exists k,
        (forall i, i < k ->
           verdict (srv (log ++ rounds self task_id i)%list status) = inr false) /\
        exists j, (None, (log ++ firstn (S fuel) (round self task_id))%list, 0) =
                  (@None (result unit),
                   (log ++ rounds self task_id k ++ firstn j (round self task_id))%list, 0)).
      { exists 0. split; [intros i Hi; lia|]. exists (S fuel). reflexivity. }
      destruct fuel as [|[|[|[|m]]]];
        try (destruct Short as (k & P & j & E); exists k; split; [exact P|];
             left; exists j; exact E).
      destruct (IH m ltac:(lia) srv (log ++ round self task_id)%list) as (k & P & Q).
      exists (S k). split.
      * intros [|i] Hi.
        -- cbn [rounds]. rewrite app_nil_r. exact V.
        -- cbn [rounds]. rewrite app_assoc. apply P. lia.
      * cbn [rounds].
        destruct Q as [(j & E)|(r & n & E & W)].
        -- left. exists j. rewrite E, <- !app_assoc. reflexivity.
        -- right. exists r, n. split.
           ++ rewrite E, <- !app_assoc. reflexivity.
           ++ rewrite app_assoc. exact W.
Qed.

End Polling.

(** ** Facts about logs *)

Lemma append_length (s u : string) :
  String.length (s ++ u) = String.length s + String.length u.
Proof. induction s as [|a s IH]; cbn; [reflexivity|]. rewrite IH. reflexivity. Qed.

Lemma in_firstn {A} (x : A) n (l : list A) : In x (firstn n l) -> In x l.
Proof.
  intros Hx. rewrite <- (firstn_skipn n l). apply in_or_app. left. exact Hx.
Qed.

Lemma last_occurrence {A} (x : A) (l pre post : list A) :
  ~ In x l -> (l ++ [x])%list = (pre ++ x :: post)%list -> pre = l /\ post = [].
Proof.
  intros Hx E. destruct (app_inj_pivot _ _ _ _ _ E) as [[(I & _)|(I & _)]|(E1 & E2)].
  - contradiction.
  - destruct I.
  - auto.
Qed.

Section Waiting.
Context `{Runtime}.
Variables (self : Client.t) (task_id : value).
Implicit Types (srv : server) (log : list action) (fuel : nat).

Local Abbreviation status := (status_request self task_id).
Local Abbreviation results := (results_request self task_id).
Local Abbreviation loop := (while_true (Client.poll self (status_path task_id))).

Lemma results_url_neq_status : url results <> url status.
Proof.
  unfold results_request, status_request, get_request. cbn [url].
  generalize (Client._baseURL self). intros b E.
  assert (L := f_equal String.length E). rewrite !append_length in L.
  cbn in L. lia.
Qed.

Lemma results_neq_status : results <> status.
Proof. intros E. apply results_url_neq_status. rewrite E. reflexivity. Qed.

Lemma in_round a :
  In a (round self task_id) ->
  a = Sent status \/ a = Printed "." \/ a = Flushed \/ a = Slept 5.
Proof. cbn. intuition auto. Qed.

Lemma in_rounds a k : In a (rounds self task_id k) -> In a (round self task_id).
Proof.
  induction k as [|k IH]; cbn [rounds]; [intros []|].
  intros I. apply in_app_or in I. destruct I; auto.
Qed.

Lemma results_not_in_round : ~ In (Sent results) (round self task_id).
Proof.
  intros I. apply in_round in I.
  destruct I as [E|[E|[E|E]]]; try discriminate E.
  apply results_neq_status.
  exact (f_equal (fun a => match a with Sent rq => rq | _ => results end) E).
Qed.

Lemma authorized_round : Forall (authorized self) (round self task_id).
Proof. unfold round. repeat constructor. Qed.

Lemma authorized_rounds k : Forall (authorized self) (rounds self task_id k).
Proof.
  induction k as [|k IH]; cbn [rounds]; [constructor|].
  apply Forall_app. split; [apply authorized_round | exact IH].
Qed.

(** [wait_for_results] after its loop. *)
Lemma exec_wait fuel srv log :
  exec fuel srv log (Client.wait_for_results self task_id) =
  match exec fuel srv log loop with
  | (Some (inr _), log1, S (S m)) =>
      (Some (Py.bind (decoded (srv (log1 ++ [Printed newline])%list results))
                     Client.deserialize),
       (log1 ++ [Printed newline; Sent results])%list, m)
  | (Some (inr _), log1, fuel1) => (None, (log1 ++ firstn fuel1 [Printed newline])%list, 0)
  | (Some (inl e), log1, fuel1) => (Some (inl e), log1, fuel1)
  | (None, log1, fuel1) => (None, log1, fuel1)
  end.
Proof.
  unfold Client.wait_for_results. rewrite exec_pbind.
  change ("/task/" ++ str task_id) with (status_path task_id).
  destruct (exec fuel srv log loop) as [[[[e|[]]|] log1] fuel1]; try reflexivity.
  cbv beta. rewrite exec_pbind.
  destruct fuel1 as [|fuel1].
  { rewrite exec_perform_O. cbn. rewrite app_nil_r. reflexivity. }
  rewrite exec_print, exec_pbind.
  destruct fuel1 as [|m]; [rewrite exec_get_O; reflexivity|].
  rewrite exec_get. change (get_request self (status_path task_id ++ "?include=results")) with results.
  rewrite <- app_assoc. cbn [app].
  destruct (decoded (srv (log1 ++ [Printed newline])%list results)) as [e|v];
    [reflexivity | apply exec_lift].
Qed.

End Waiting.

Section WaitShape.
Context `{Runtime}.
Variables (self : Client.t) (task_id : value).
Implicit Types (srv : server) (log : list action) (fuel : nat).

Local Abbreviation status := (status_request self task_id).
Local Abbreviation results := (results_request self task_id).
Local Abbreviation wait := (Client.wait_for_results self task_id).

(** Every run of [wait_for_results]: [k] polls found the task not
    complete; then either the call stopped (or ran out of fuel) without a
    results request, or the next poll found the task complete and the
    results request followed. *)
Lemma wait_shape fuel srv log :
  exists k,
    (forall i, i < k ->
       verdict (srv (log ++ rounds self task_id i)%list status) = inr false) /\
    ((exists o tail n,
        exec fuel srv log wait = (o, (log ++ rounds self task_id k ++ tail)%list, n) /\
        ~ In (Sent results) tail /\ Forall (authorized self) tail)
     \/
     (exists o n,
        exec fuel srv log wait =
        (o, (log ++ rounds self task_id k ++
             [Sent status; Printed newline; Sent results])%list, n) /\
        verdict (srv (log ++ rounds self task_id k)%list status) = inr true)).
Proof.
  destruct (loop_shape self task_id fuel srv log) as (k & P & Q).
  exists k. split; [exact P|].
  rewrite exec_wait.
  destruct Q as [(j & E)|(r & n & E & V)]; rewrite E.
  - left. exists None, (firstn j (round self task_id)), 0. split; [reflexivity|]. split.
    + intros I. apply in_firstn in I. exact (results_not_in_round I).
    + apply Forall_forall. intros a I. apply in_firstn in I.
      exact (proj1 (Forall_forall _ _) (authorized_round self task_id) a I).
  - destruct r as [e|[]].
    + left. exists (Some (inl e)), [Sent status], n. split; [reflexivity|]. split.
      * intros [I|[]]. apply (results_neq_status (self := self) (task_id := task_id)).
        exact (f_equal (fun a => match a with Sent rq => rq | _ => results end) (eq_sym I)).
      * repeat constructor.
    + destruct n as [|[|m]].
      * left. exists None, [Sent status], 0. split.
        { cbn [firstn]. rewrite app_nil_r. reflexivity. }
        split.
        -- intros [I|[]]. apply (results_neq_status (self := self) (task_id := task_id)).
           exact (f_equal (fun a => match a with Sent rq => rq | _ => results end) (eq_sym I)).
        -- repeat constructor.
      * left. exists None, [Sent status; Printed newline], 0. split.
        { cbn [firstn]. rewrite <- !app_assoc. reflexivity. }
        split.
        -- intros [I|[I|[]]]; [|discriminate I].
           apply (results_neq_status (self := self) (task_id := task_id)).
           exact (f_equal (fun a => match a with Sent rq => rq | _ => results end) (eq_sym I)).
        -- repeat constructor.
      * right. eexists _, m. split; [|exact V].
        rewrite <- !app_assoc. reflexivity.
Qed.

(** The run that finds the task complete at poll [k]. *)
Lemma exec_wait_complete srv log k n :
  (forall i, i < k ->
     verdict (srv (log ++ rounds self task_id i)%list status) = inr false) ->
  verdict (srv (log ++ rounds self task_id k)%list status) = inr true ->
  exec (5 * k + 3 + n) srv log wait =
  (Some (Py.bind
           (decoded (srv (log ++ rounds self task_id k ++
                          [Sent status; Printed newline])%list results))
           Client.deserialize),
   (log ++ rounds self task_id k ++ [Sent status; Printed newline; Sent results])%list,
   n).
Proof.
  intros P V.
  rewrite exec_wait.
  replace (5 * k + 3 + n) with (5 * k + S (S (S n))) by lia.
  rewrite exec_loop_pending by exact P.
  rewrite exec_loop, V, <- !app_assoc. reflexivity.
Qed.

(** Whatever [wait_for_results] sends carries the client's token. *)
Lemma wait_authorized fuel srv log :
  exists o suffix n,
    exec fuel srv log wait = (o, (log ++ suffix)%list, n) /\
    Forall (authorized self) suffix.
Proof.
  destruct (wait_shape fuel srv log) as (k & _ & [(o & tail & n & E & _ & F)|(o & n & E & _)]).
  - exists o, (rounds self task_id k ++ tail)%list, n. split; [exact E|].
    apply Forall_app. split; [apply authorized_rounds | exact F].
  - exists o, (rounds self task_id k ++ [Sent status; Printed newline; Sent results])%list, n.
    split; [exact E|].
    apply Forall_app. split; [apply authorized_rounds | repeat constructor].
Qed.

End WaitShape.

(** ** The properties of the specification *)

Section Properties.
Context `{Runtime}.
Implicit Types (self : Client.t) (srv : server) (log : list action) (fuel : nat).

(** C1. [wait_for_results(task_id)] sends GET requests to
    [/task/{task_id}] until a reply reports the task complete, and only
    then one GET to [/task/{task_id}?include=results]. First the two
    requests, which differ. Then, for every server and every bound on the run: a results request in
    the log is the last action, and what precedes it is [k] turns of the
    loop whose replies were not complete, one status request whose reply
    was complete, and the newline. Last, when the first [k] replies are not
    complete and the next one is, the call runs to its end with exactly
    that log. The flag is read as the [if] reads it ([truthy]); for a
    boolean flag that is the flag itself. *)
Theorem wait_for_results_polls_until_complete self task_id srv log :
  (url (status_request self task_id) = Client._baseURL self ++ "/task/" ++ str task_id /\
   url (results_request self task_id) =
     Client._baseURL self ++ "/task/" ++ str task_id ++ "?include=results" /\
   meth (status_request self task_id) = GET /\
   meth (results_request self task_id) = GET /\
   results_request self task_id <> status_request self task_id) /\
  (forall fuel o log' n pre post,
     exec fuel srv log (Client.wait_for_results self task_id) = (o, log', n) ->
     log' = (log ++ pre ++ Sent (results_request self task_id) :: post)%list ->
     post = [] /\
     exists k,
       pre = (rounds self task_id k ++
              [Sent (status_request self task_id); Printed newline])%list /\
       verdict (srv (log ++ rounds self task_id k)%list (status_request self task_id)) =
         inr true /\
       forall i, i < k ->
         verdict (srv (log ++ rounds self task_id i)%list (status_request self task_id)) =
           inr false) /\
  (forall k,
     (forall i, i < k ->
        verdict (srv (log ++ rounds self task_id i)%list (status_request self task_id)) =
          inr false) ->
     verdict (srv (log ++ rounds self task_id k)%list (status_request self task_id)) =
       inr true ->
     forall n,
       exec (5 * k + 3 + n) srv log (Client.wait_for_results self task_id) =
       (Some (Py.bind
                (decoded (srv (log ++ rounds self task_id k ++
                               [Sent (status_request self task_id); Printed newline])%list
                              (results_request self task_id)))
                Client.deserialize),
        (log ++ rounds self task_id k ++
         [Sent (status_request self task_id); Printed newline;
          Sent (results_request self task_id)])%list,
        n)).
Proof.
  split; [repeat split; apply results_neq_status|]. split.
  - intros fuel o log' n pre post E L.
    destruct (wait_shape self task_id fuel srv log)
      as (k & P & [(o' & tail & n' & E' & NI & _)|(o' & n' & E' & V)]);
      rewrite E' in E; injection E as _ <- _; apply app_inv_head in L.
    + exfalso.
      assert (I : In (Sent (results_request self task_id))
                     (rounds self task_id k ++ tail)%list).
      { rewrite L. apply in_elt. }
      apply in_app_or in I. destruct I as [I|I]; [|exact (NI I)].
      exact (results_not_in_round (in_rounds _ _ _ _ I)).
    + change (rounds self task_id k ++
              [Sent (status_request self task_id); Printed newline;
               Sent (results_request self task_id)])%list
        with (rounds self task_id k ++
              [Sent (status_request self task_id); Printed newline] ++
              [Sent (results_request self task_id)])%list in L.
      rewrite app_assoc in L. apply last_occurrence in L.
      * destruct L as [-> ->]. split; [reflexivity|]. exists k. auto.
      * intros I. apply in_app_or in I. destruct I as [I|[I|[I|[]]]].
        -- exact (results_not_in_round (in_rounds _ _ _ _ I)).
        -- apply (results_neq_status (self := self) (task_id := task_id)).
           exact (f_equal (fun a => match a with
                                    | Sent rq => rq
                                    | _ => results_request self task_id
                                    end) (eq_sym I)).
        -- discriminate I.
  - intros k P V n. apply exec_wait_complete; assumption.
Qed.

Lemma exec_loop_all_pending self task_id srv log q r :
  (forall i, verdict (srv (log ++ rounds self task_id i)%list (status_request self task_id)) =
             inr false) ->
  r < 5 ->
  exec (5 * q + r) srv log (while_true (Client.poll self (status_path task_id))) =
  (None, (log ++ rounds self task_id q ++ firstn r (round self task_id))%list, 0).
Proof.
  intros P Hr. rewrite exec_loop_pending by (intros i _; apply P).
  destruct r as [|r].
  - rewrite exec_loop_O. cbn [firstn]. rewrite app_nil_r. reflexivity.
  - rewrite exec_loop, P, <- app_assoc.
    destruct r as [|[|[|[|m]]]]; try reflexivity. lia.
Qed.

Lemma count_status_rounds self task_id k :
  count_sent_to (url (status_request self task_id)) (rounds self task_id k) = k.
Proof.
  unfold count_sent_to. induction k as [|k IH]; [reflexivity|].
  cbn [rounds]. rewrite filter_app, length_app, IH.
  unfold round. cbn [filter sent_to]. rewrite String.eqb_refl. reflexivity.
Qed.

Lemma count_results_round_prefix self task_id k j :
  count_sent_to (url (results_request self task_id))
    (rounds self task_id k ++ firstn j (round self task_id))%list = 0.
Proof.
  unfold count_sent_to.
  assert (F : forall a, In a (round self task_id) ->
                        sent_to (url (results_request self task_id)) a = false).
  { intros a I. apply in_round in I. destruct I as [-> | [-> | [-> | ->]]]; try reflexivity.
    cbn [sent_to]. apply String.eqb_neq. intros E.
    exact (results_url_neq_status self task_id (eq_sym E)). }
  assert (N : forall l, (forall a, In a l -> In a (round self task_id)) ->
                        filter (sent_to (url (results_request self task_id))) l = []).
  { induction l as [|a l IH]; intros I; [reflexivity|].
    cbn [filter]. rewrite (F a (I a (or_introl eq_refl))).
    apply IH. intros b Hb. apply I. right. exact Hb. }
  rewrite N; [reflexivity|].
  intros a I. apply in_app_or in I. destruct I as [I|I].
  - exact (in_rounds _ _ _ _ I).
  - exact (in_firstn _ _ _ I).
Qed.

(** C5. While every status reply reports the task not complete,
    [wait_for_results] never returns and never asks for the results,
    however long it runs; and for every [n] it gets to send more than [n]
    status requests. *)
Theorem wait_for_results_polls_forever self task_id srv log :
  (forall i, verdict (srv (log ++ rounds self task_id i)%list (status_request self task_id)) =
             inr false) ->
  (forall fuel, exists suffix,
     exec fuel srv log (Client.wait_for_results self task_id) =
       (None, (log ++ suffix)%list, 0) /\
     count_sent_to (url (results_request self task_id)) suffix = 0) /\
  (forall n, exists fuel suffix,
     exec fuel srv log (Client.wait_for_results self task_id) =
       (None, (log ++ suffix)%list, 0) /\
     n < count_sent_to (url (status_request self task_id)) suffix).
Proof.
  intros P. split.
  - intros fuel.
    exists (rounds self task_id (fuel / 5) ++ firstn (fuel mod 5) (round self task_id))%list.
    split; [|apply count_results_round_prefix].
    rewrite exec_wait. rewrite (Nat.div_mod_eq fuel 5) at 1.
    rewrite exec_loop_all_pending; [reflexivity | exact P |].
    apply Nat.mod_upper_bound. discriminate.
  - intros n. exists (5 * S n + 0), (rounds self task_id (S n)). split.
    + rewrite exec_wait, exec_loop_all_pending; [|exact P|lia].
      cbn [firstn]. rewrite app_nil_r. reflexivity.
    + rewrite count_status_rounds. lia.
Qed.

Lemma comprehension_Forall2 {A B} (f : A -> result B) (l : list A) (ys : list B) :
  Forall2 (fun x y => f x = inr y) l ys -> comprehension f l = inr ys.
Proof.
  induction 1 as [|x y l ys E _ IH]; [reflexivity|].
  cbn [comprehension]. rewrite E, IH. reflexivity.
Qed.

Lemma comprehension_inr {A B} (f : A -> result B) (l : list A) (ys : list B) :
  comprehension f l = inr ys -> Forall2 (fun x y => f x = inr y) l ys.
Proof.
  revert ys. induction l as [|x l IH]; intros ys; cbn [comprehension].
  - intros E. injection E as <-. constructor.
  - destruct (f x) as [e|y] eqn:F; [discriminate|].
    destruct (comprehension f l) as [e|ys'] eqn:C; [discriminate|].
    intros E. injection E as <-. constructor; [exact F | apply IH; reflexivity].
Qed.

(** The comprehension returns exactly when every entry holds a string
    under ['result'] and that string decodes; one entry that does not makes
    the whole call raise. *)
Lemma deserialize_entries entries values :
  comprehension (fun r => Py.bind (subscript r "result") loads) entries = inr values <->
  Forall2 (fun entry v =>
             exists s, subscript entry "result" = inr (VStr s) /\ json_loads s = Some v)
          entries values.
Proof.
  split.
  - intros C. apply comprehension_inr in C.
    eapply Forall2_impl; [|exact C].
    intros entry v. cbn beta. destruct (subscript entry "result") as [e|x]; [discriminate|].
    cbn [Py.bind]. destruct x; try discriminate.
    cbn [loads]. destruct (json_loads s) as [y|] eqn:J; [|discriminate].
    intros E. injection E as <-. exists s. auto.
  - intros F. apply comprehension_Forall2.
    eapply Forall2_impl; [|exact F].
    intros entry v (s & -> & J). cbn [Py.bind loads]. rewrite J. reflexivity.
Qed.

(** C3. When the results reply holds a list of entries under ['results']
    and each entry holds under ['result'] a string that decodes as JSON,
    [wait_for_results] returns the decoded values: one per entry, in the
    order of the entries, each from its own entry alone. *)
Theorem wait_for_results_deserializes_in_order
  self task_id srv log k response entries values :
  (forall i, i < k ->
     verdict (srv (log ++ rounds self task_id i)%list (status_request self task_id)) =
       inr false) ->
  verdict (srv (log ++ rounds self task_id k)%list (status_request self task_id)) =
    inr true ->
  srv (log ++ rounds self task_id k ++
       [Sent (status_request self task_id); Printed newline])%list
      (results_request self task_id) = Body response ->
  subscript response "results" = inr (VList entries) ->
  Forall2 (fun entry v =>
             exists s, subscript entry "result" = inr (VStr s) /\ json_loads s = Some v)
          entries values ->
  (forall n,
     exec (5 * k + 3 + n) srv log (Client.wait_for_results self task_id) =
     (Some (inr values),
      (log ++ rounds self task_id k ++
       [Sent (status_request self task_id); Printed newline;
        Sent (results_request self task_id)])%list,
      n)) /\
  Client.deserialize response = inr values /\
  List.length values = List.length entries.
Proof.
  intros P V B L F.
  assert (D : Client.deserialize response = inr values).
  { unfold Client.deserialize. rewrite L. cbn [Py.bind iter].
    apply deserialize_entries. exact F. }
  split; [|split; [exact D|]].
  - intros n.
    rewrite (exec_wait_complete self task_id srv log n P V).
    rewrite B. cbn [decoded Py.bind]. rewrite D. reflexivity.
  - symmetry. exact (Forall2_length F).
Qed.

Lemma append_assoc (s u v : string) : (s ++ u) ++ v = s ++ u ++ v.
Proof. induction s as [|a s IH]; cbn; [reflexivity|]. rewrite IH. reflexivity. Qed.

(** C4. The URL of [get(url)] is host, then api_path, then [url]: with
    host "http://x" and api_path "/api", [get("/task/5")] goes to
    "http://x/api/task/5", whatever the other attributes of the client. *)
Theorem get_targets_host_api_path_url :
  (forall self u fuel srv log,
     exists rq,
       exec (S fuel) srv log (Client.get self u) =
         (Some (decoded (srv log rq)), (log ++ [Sent rq])%list, fuel) /\
       meth rq = GET /\
       url rq = Client.host self ++ Client.api_path self ++ u) /\
  (forall collaboration_id username password access_token refresh_token fuel srv log,
     exists rq,
       exec (S fuel) srv log
         (Client.get
            (Client.Make "http://x" "/api" collaboration_id username password
               access_token refresh_token)
            "/task/5") =
         (Some (decoded (srv log rq)), (log ++ [Sent rq])%list, fuel) /\
       meth rq = GET /\
       url rq = "http://x/api/task/5").
Proof.
  split.
  - intros self u fuel srv log. exists (get_request self u).
    split; [apply exec_get|]. split; [reflexivity|].
    cbn [url get_request]. unfold Client._baseURL. apply append_assoc.
  - intros. eexists. split; [apply exec_get|]. split; reflexivity.
Qed.

(** C7. [authenticate] sends one POST to [{host}{api_path}/token/user]
    whose body is the stored username and password, with no headers. The
    call succeeds exactly when the reply decodes to an object that has an
    ['access_token'] and a ['refresh_token'], and then these two values are
    the client's new [access_token] and [refresh_token]; nothing else of
    the client changes. *)
Theorem authenticate_posts_credentials_and_stores_tokens self fuel srv log :
  Client.token_request self =
    {| meth := POST;
       url := Client.host self ++ Client.api_path self ++ "/token/user";
       headers := [];
       json := Some (VDict [("username", Client.username self);
                            ("password", Client.password self)]) |} /\
  exists self' outcome,
    exec (S fuel) srv log (Client.authenticate self) =
      (Some (self', outcome), (log ++ [Sent (Client.token_request self)])%list, fuel) /\
    (forall r a b,
       srv log (Client.token_request self) = Body r ->
       subscript r "access_token" = inr a ->
       subscript r "refresh_token" = inr b ->
       outcome = inr tt /\
       self' = Client.Make (Client.host self) (Client.api_path self)
                 (Client.collaboration_id self) (Client.username self)
                 (Client.password self) a b) /\
    (outcome = inr tt ->
     exists r,
       srv log (Client.token_request self) = Body r /\
       subscript r "access_token" = inr (Client.access_token self') /\
       subscript r "refresh_token" = inr (Client.refresh_token self')).
Proof.
  split; [reflexivity|].
  exists (fst (authenticated self (srv log (Client.token_request self)))),
         (snd (authenticated self (srv log (Client.token_request self)))).
  split; [rewrite exec_authenticate, <- surjective_pairing; reflexivity|].
  unfold authenticated. split.
  - intros r a b -> A B. cbn [decoded]. rewrite A, B. split; reflexivity.
  - destruct (srv log (Client.token_request self)) as [r| |]; cbn [decoded fst snd];
      try discriminate.
    destruct (subscript r "access_token") as [e|a] eqn:A; cbn [fst snd]; try discriminate.
    destruct (subscript r "refresh_token") as [e|b] eqn:B; cbn [fst snd]; try discriminate.
    intros _. exists r. auto.
Qed.

(** C9. The [__main__] block calls [run] with no argument; [run] has five
    required parameters, so the call raises [TypeError] before anything is
    sent or printed. The same holds for every argument count other than
    five. *)
Theorem main_raises_before_any_request fuel srv log :
  main = call_run [] /\
  exec fuel srv log main = (Some (inl TypeError), log, fuel) /\
  (forall args,
     List.length args <> 5 ->
     exec fuel srv log (call_run args) = (Some (inl TypeError), log, fuel)).
Proof.
  split; [reflexivity|]. split; [apply exec_Ret|].
  intros args L.
  destruct args as [|a1 [|a2 [|a3 [|a4 [|a5 [|a6 args]]]]]]; try apply exec_Ret.
  cbn in L. congruence.
Qed.

Lemma invoke_keeps_client self c fuel srv log self' log' n :
  c <> Authenticate ->
  exec fuel srv log (invoke self c) = (Some self', log', n) ->
  self' = self.
Proof.
  intros N.
  assert (K : forall A (m : itree scriptE A),
            exec fuel srv log (ITree.bind m (fun _ => Ret self)) = (Some self', log', n) ->
            self' = self).
  { intros A m. rewrite exec_bind.
    destruct (exec fuel srv log m) as [[[x|] l] k]; [|discriminate].
    rewrite exec_Ret. congruence. }
  destruct c; cbn [invoke]; try apply K. congruence.
Qed.

Lemma session_keeps_client calls : forall self fuel srv log self' log' n,
  Forall (fun c => c <> Authenticate) calls ->
  exec fuel srv log (session self calls) = (Some self', log', n) ->
  self' = self.
Proof.
  induction calls as [|c calls IH]; intros self fuel srv log self' log' n F; cbn [session].
  - rewrite exec_Ret. congruence.
  - rewrite exec_bind.
    destruct (exec fuel srv log (invoke self c)) as [[[self1|] l] k] eqn:E; [|discriminate].
    apply invoke_keeps_client in E; [|exact (Forall_inv F)]. subst self1.
    apply IH. exact (Forall_inv_tail F).
Qed.

(** C10. [get] and [post] do not check that the client is authenticated.
    On a client as [__init__] leaves it, [access_token] is [None], and
    [get] and [post] send their request all the same, with the header
    [Authorization: Bearer None]; what they return or raise is decided by
    the reply alone. Calls other than [authenticate] leave the client as
    it is, so this is every client on which [authenticate] was not
    called. *)
Theorem get_and_post_send_bearer_none_before_authenticate
  host collaboration_id username password api_path :
  Client.access_token
    (Client.__init__ host collaboration_id username password api_path) = VNone /\
  (forall u fuel srv log,
   exists rq,
     exec (S fuel) srv log
       (Client.get (Client.__init__ host collaboration_id username password api_path) u) =
       (Some (decoded (srv log rq)), (log ++ [Sent rq])%list, fuel) /\
     rq = {| meth := GET; url := (host ++ api_path) ++ u;
             headers := [("Authorization", "Bearer None")]; json := None |}) /\
  (forall u task fuel srv log,
   exists rq,
     exec (S fuel) srv log
       (Client.post (Client.__init__ host collaboration_id username password api_path)
          u task) =
       (Some (decoded (srv log rq)), (log ++ [Sent rq])%list, fuel) /\
     rq = {| meth := POST; url := (host ++ api_path) ++ u;
             headers := [("Authorization", "Bearer None")]; json := Some task |}) /\
  (forall calls fuel srv log self' log' n,
     Forall (fun c => c <> Authenticate) calls ->
     exec fuel srv log
       (session (Client.__init__ host collaboration_id username password api_path) calls) =
       (Some self', log', n) ->
     self' = Client.__init__ host collaboration_id username password api_path).
Proof.
  split; [reflexivity|]. split; [|split].
  - intros. eexists. split; [apply exec_get | reflexivity].
  - intros. eexists. split; [apply exec_post | reflexivity].
  - intros calls fuel srv log self' log' n F E.
    exact (@session_keeps_client calls _ fuel srv log self' log' n F E).
Qed.

Lemma authenticated_inr self resp self' :
  authenticated self resp = (self', inr tt) ->
  exists r a b,
    resp = Body r /\
    subscript r "access_token" = inr a /\
    subscript r "refresh_token" = inr b /\
    self' = Client.set_refresh_token (Client.set_access_token self a) b.
Proof.
  unfold authenticated.
  destruct resp as [r| |]; cbn [decoded]; try discriminate.
  destruct (subscript r "access_token") as [e|a] eqn:A; try discriminate.
  destruct (subscript r "refresh_token") as [e|b] eqn:B; try discriminate.
  intros E. injection E as <-. exists r, a, b. auto.
Qed.

Lemma exec_server_ext {R} fuel : forall (t : itree scriptE R) (srv srv' : server) log,
  (forall l rq, srv (log ++ l)%list rq = srv' (log ++ l)%list rq) ->
  exec fuel srv log t = exec fuel srv' log t.
Proof.
  induction fuel as [|fuel IH]; intros t srv srv' log X.
  - rewrite (exec_eq 0 srv), (exec_eq 0 srv'). reflexivity.
  - rewrite (exec_eq (S fuel) srv), (exec_eq (S fuel) srv').
    destruct (observe t) as [r|t'|X0 e k]; [reflexivity | apply IH; exact X |].
    assert (X' : forall a l rq,
              srv ((log ++ [a]) ++ l)%list rq = srv' ((log ++ [a]) ++ l)%list rq).
    { intros a l rq. rewrite <- app_assoc. apply X. }
    destruct e as [rq|text| |z]; try (apply IH; apply X').
    generalize (X [] rq). rewrite app_nil_r. intros ->. apply IH. apply X'.
Qed.

Lemma lookup_set_item_same key v d :
  lookup key (set_item key v d) =
  match lookup key d with
  | Some _ => Some v
  | None => None
  end.
Proof.
  induction d as [|[k x] d IH]; [reflexivity|].
  cbn [set_item lookup]. destruct (String.eqb k key) eqn:E; cbn [lookup]; rewrite E.
  - reflexivity.
  - exact IH.
Qed.

Lemma lookup_set_item_other key key' v d :
  key' <> key -> lookup key' (set_item key v d) = lookup key' d.
Proof.
  intros N. induction d as [|[k x] d IH]; [reflexivity|].
  cbn [set_item lookup]. destruct (String.eqb k key) eqn:E; cbn [lookup].
  - apply String.eqb_eq in E. subst k.
    destruct (String.eqb key key') eqn:E'; [|reflexivity].
    apply String.eqb_eq in E'. congruence.
  - rewrite IH. reflexivity.
Qed.

(** The refresh token of the reply decides nothing in [authenticate] but
    the attribute of that name. *)
Lemma authenticated_with_refresh_token self b resp :
  snd (authenticated self (with_refresh_token b resp)) = snd (authenticated self resp) /\
  Client.set_refresh_token (fst (authenticated self (with_refresh_token b resp))) VNone =
  Client.set_refresh_token (fst (authenticated self resp)) VNone.
Proof.
  destruct resp as [r| |]; try (split; reflexivity).
  destruct r as [| | | | | |d]; try (split; reflexivity).
  unfold authenticated, with_refresh_token. cbn [decoded subscript].
  rewrite lookup_set_item_other by discriminate. rewrite lookup_set_item_same.
  destruct (lookup "access_token" d), (lookup "refresh_token" d); split; reflexivity.
Qed.

(** C8. The refresh token is stored and never read. Two clients that
    differ only in their [refresh_token] send the same requests, take the
    same steps and return the same values in [get], [post], [create_task]
    and [wait_for_results], against any server. And two runs of [run]
    against servers that differ only in the refresh token the token
    endpoint returns have the same log and the same outcome. *)
Theorem refresh_token_is_never_read :
  (forall self b1 b2 u task task_id fuel srv log,
     exec fuel srv log (Client.get (Client.set_refresh_token self b1) u) =
     exec fuel srv log (Client.get (Client.set_refresh_token self b2) u) /\
     exec fuel srv log (Client.post (Client.set_refresh_token self b1) u task) =
     exec fuel srv log (Client.post (Client.set_refresh_token self b2) u task) /\
     exec fuel srv log (Client.create_task (Client.set_refresh_token self b1) task) =
     exec fuel srv log (Client.create_task (Client.set_refresh_token self b2) task) /\
     exec fuel srv log (Client.wait_for_results (Client.set_refresh_token self b1) task_id) =
     exec fuel srv log (Client.wait_for_results (Client.set_refresh_token self b2) task_id)) /\
  (forall b host api_path username password collaboration_id fuel srv,
     exec fuel (refreshed b srv) [] (run host api_path username password collaboration_id) =
     exec fuel srv [] (run host api_path username password collaboration_id)).
Proof.
  split; [intros; repeat split; reflexivity|].
  intros b host api_path username password collaboration_id fuel srv.
  unfold run. set (c0 := Client.__init__ host collaboration_id username password api_path).
  rewrite !exec_bind.
  destruct fuel as [|fuel]; [rewrite !exec_authenticate_O; reflexivity|].
  rewrite !exec_authenticate. cbn [refreshed app].
  destruct (authenticated_with_refresh_token c0 b (srv [] (Client.token_request c0)))
    as [O C].
  destruct (authenticated c0 (with_refresh_token b (srv [] (Client.token_request c0))))
    as [c1 o1].
  destruct (authenticated c0 (srv [] (Client.token_request c0))) as [c2 o2].
  cbn [fst snd] in O, C. subst o2.
  destruct o1 as [e|[]]; [rewrite !exec_Ret; reflexivity|].
  set (rest := fun c : Client.t =>
    pbind (Client.create_task c (task_of host api_path collaboration_id))
      (fun response =>
         pbind (lift (subscript response "id"))
           (fun task_id => Client.wait_for_results c task_id))).
  change (exec fuel (refreshed b srv) [Sent (Client.token_request c0)] (rest c1) =
          exec fuel srv [Sent (Client.token_request c0)] (rest c2)).
  change (rest c1) with (rest (Client.set_refresh_token c1 VNone)).
  change (rest c2) with (rest (Client.set_refresh_token c2 VNone)).
  rewrite C. apply exec_server_ext. intros l rq. reflexivity.
Qed.

(** C6. In a run of [run], the first thing sent is the token request of
    [authenticate], and anything is sent after it only when that call
    succeeded: the reply held an access token and a refresh token, and
    every later request carries that access token. *)
Theorem run_authenticates_before_any_other_request
  host api_path username password collaboration_id fuel srv log :
  exists o suffix n,
    exec fuel srv log (run host api_path username password collaboration_id) =
      (o, (log ++ suffix)%list, n) /\
    (suffix = [] \/
     exists rest,
       suffix =
         Sent (Client.token_request
                 (Client.__init__ host collaboration_id username password api_path))
         :: rest /\
       (rest = [] \/
        exists r a b,
          srv log (Client.token_request
                     (Client.__init__ host collaboration_id username password api_path)) =
            Body r /\
          subscript r "access_token" = inr a /\
          subscript r "refresh_token" = inr b /\
          Forall (fun act =>
                    match act with
                    | Sent rq => headers rq = [("Authorization", "Bearer " ++ str a)]
                    | _ => True
                    end) rest)).
Proof.
  set (c0 := Client.__init__ host collaboration_id username password api_path).
  unfold run. fold c0. rewrite exec_bind.
  destruct fuel as [|fuel].
  { rewrite exec_authenticate_O. exists None, [], 0.
    rewrite app_nil_r. auto. }
  rewrite exec_authenticate.
  destruct (authenticated c0 (srv log (Client.token_request c0))) as [c1 [e|[]]] eqn:Au.
  { rewrite exec_Ret. eexists _, [Sent _], _. split; [reflexivity|].
    right. exists []. auto. }
  apply authenticated_inr in Au. destruct Au as (r & a & b & R & A & B & ->).
  assert (Go : forall (o : option (result (list value))) rest (n : nat),
            Forall (authorized
                      (Client.set_refresh_token (Client.set_access_token c0 a) b)) rest ->
            exists o' suffix n',
              (o, (log ++ Sent (Client.token_request c0) :: rest)%list, n) =
                (o', (log ++ suffix)%list, n') /\
              (suffix = [] \/
               exists rest,
                 suffix = Sent (Client.token_request c0) :: rest /\
                 (rest = [] \/
                  exists r a b,
                    srv log (Client.token_request c0) = Body r /\
                    subscript r "access_token" = inr a /\
                    subscript r "refresh_token" = inr b /\
                    Forall (fun act =>
                              match act with
                              | Sent rq =>
                                  headers rq = [("Authorization", "Bearer " ++ str a)]
                              | _ => True
                              end) rest))).
  { intros o rest n F. exists o, (Sent (Client.token_request c0) :: rest), n.
    split; [reflexivity|].
    right. exists rest. split; [reflexivity|]. right. exists r, a, b.
    repeat split; assumption. }
  set (c1 := Client.set_refresh_token (Client.set_access_token c0 a) b) in *.
  rewrite exec_pbind. unfold Client.create_task.
  destruct fuel as [|fuel].
  { rewrite exec_post_O. apply Go. constructor. }
  rewrite exec_post, <- app_assoc. cbn [app].
  set (submit := post_request c1 "/task" (task_of host api_path collaboration_id)).
  assert (Fs : Forall (authorized c1) [Sent submit]) by (repeat constructor).
  destruct (decoded _) as [e|response]; [apply Go; exact Fs|].
  rewrite exec_pbind, exec_lift.
  destruct (subscript response "id") as [e|task_id]; [apply Go; exact Fs|].
  destruct (wait_authorized c1 task_id fuel srv
              (log ++ [Sent (Client.token_request c0); Sent submit])%list)
    as (o & suffix & n & E & F).
  rewrite E, <- app_assoc. cbn [app].
  apply Go. constructor; [reflexivity | exact F].
Qed.










End Properties.

(** ** Further properties of the code *)

Section Further.
Context `{Runtime}.
Implicit Types (self : Client.t) (srv : server) (log : list action) (fuel : nat).

(** X1. [authenticate] sends its one request whatever comes back, and the
    reply decides the rest. Without a reply, with a body that is not JSON,
    with JSON that is not an object, or with an object that has no
    ['access_token'], the call raises and the client is as before. With an
    ['access_token'] and no ['refresh_token'] it raises [KeyError] for the
    refresh token, and the client holds the new access token with its old
    refresh token. With both it succeeds and holds both. *)
Theorem authenticate_outcomes self fuel srv log :
  exists self' outcome,
    exec (S fuel) srv log (Client.authenticate self) =
      (Some (self', outcome), (log ++ [Sent (Client.token_request self)])%list, fuel) /\
    match srv log (Client.token_request self) with
    | NoReply => outcome = inl RequestException /\ self' = self
    | NotJSON => outcome = inl JSONDecodeError /\ self' = self
    | Body (VDict d) =>
        match lookup "access_token" d, lookup "refresh_token" d with
        | None, _ => outcome = inl (KeyError "access_token") /\ self' = self
        | Some a, None =>
            outcome = inl (KeyError "refresh_token") /\
            self' = Client.Make (Client.host self) (Client.api_path self)
                      (Client.collaboration_id self) (Client.username self)
                      (Client.password self) a (Client.refresh_token self)
        | Some a, Some b =>
            outcome = inr tt /\
            self' = Client.Make (Client.host self) (Client.api_path self)
                      (Client.collaboration_id self) (Client.username self)
                      (Client.password self) a b
        end
    | Body _ => outcome = inl TypeError /\ self' = self
    end.
Proof.
  exists (fst (authenticated self (srv log (Client.token_request self)))),
         (snd (authenticated self (srv log (Client.token_request self)))).
  split; [rewrite exec_authenticate, <- surjective_pairing; reflexivity|].
  unfold authenticated.
  destruct (srv log (Client.token_request self)) as [r| |]; cbn [decoded];
    try (split; reflexivity).
  destruct r as [| | | | | |d]; cbn [subscript fst snd]; try (split; reflexivity).
  destruct (lookup "access_token" d) as [a|]; [|split; reflexivity].
  destruct (lookup "refresh_token" d) as [b|]; split; reflexivity.
Qed.

(** The exceptions one poll can end with. *)
Lemma verdict_inl resp e :
  verdict resp = inl e ->
  e = RequestException \/ e = JSONDecodeError \/ e = TypeError \/ e = KeyError "complete".
Proof.
  unfold verdict. destruct resp as [r| |]; cbn [decoded Py.bind].
  - destruct r as [| | | | | |d]; cbn [subscript Py.bind]; try (intros E; injection E as <-; auto).
    destruct (lookup "complete" d); cbn [Py.bind]; [discriminate|].
    intros E; injection E as <-; auto.
  - intros E; injection E as <-; auto.
  - intros E; injection E as <-; auto.
Qed.

(** The run whose poll [k] fails. *)
Lemma exec_wait_failed self task_id srv log k e n :
  (forall i, i < k ->
     verdict (srv (log ++ rounds self task_id i)%list (status_request self task_id)) =
       inr false) ->
  verdict (srv (log ++ rounds self task_id k)%list (status_request self task_id)) = inl e ->
  exec (5 * k + 1 + n) srv log (Client.wait_for_results self task_id) =
  (Some (inl e),
   (log ++ rounds self task_id k ++ [Sent (status_request self task_id)])%list, n).
Proof.
  intros P V. rewrite exec_wait.
  replace (5 * k + 1 + n) with (5 * k + S n) by lia.
  rewrite exec_loop_pending by exact P.
  rewrite exec_loop, V, <- !app_assoc. reflexivity.
Qed.

(** X2. When a status reply cannot be read (no reply, no JSON, no object,
    or no ['complete'] in it), after [k] replies that were not complete,
    [wait_for_results] raises at that poll: it sends nothing more, does not
    ask for the results, and the exception is the one of that reply. *)
Theorem wait_for_results_raises_at_failed_poll self task_id srv log k e :
  (forall i, i < k ->
     verdict (srv (log ++ rounds self task_id i)%list (status_request self task_id)) =
       inr false) ->
  verdict (srv (log ++ rounds self task_id k)%list (status_request self task_id)) = inl e ->
  (forall n,
     exec (5 * k + 1 + n) srv log (Client.wait_for_results self task_id) =
     (Some (inl e),
      (log ++ rounds self task_id k ++ [Sent (status_request self task_id)])%list, n)) /\
  (e = RequestException \/ e = JSONDecodeError \/ e = TypeError \/
   e = KeyError "complete").
Proof.
  intros P V. split.
  - intros n. apply exec_wait_failed; assumption.
  - exact (verdict_inl _ V).
Qed.

(** X11. [wait_for_results] comes to an end, by a return or by an
    exception, exactly when some status reply is something else than a
    readable "not complete". *)
Theorem wait_for_results_ends_iff self task_id srv log :
  (exists fuel r log' n,
     exec fuel srv log (Client.wait_for_results self task_id) = (Some r, log', n)) <->
  (exists k,
     verdict (srv (log ++ rounds self task_id k)%list (status_request self task_id)) <>
       inr false /\
     forall i, i < k ->
       verdict (srv (log ++ rounds self task_id i)%list (status_request self task_id)) =
         inr false).
Proof.
  split.
  - intros (fuel & r & log' & n & E).
    destruct (loop_shape self task_id fuel srv log) as (k & P & [(j & L)|(x & m & L & V)]).
    + rewrite exec_wait, L in E. discriminate E.
    + exists k. split; [|exact P]. rewrite V. destruct x; discriminate.
  - intros (k & V & P).
    destruct (verdict (srv (log ++ rounds self task_id k)%list (status_request self task_id)))
      as [e|[|]] eqn:W.
    + exists (5 * k + 1 + 0). do 3 eexists. apply exec_wait_failed; eassumption.
    + exists (5 * k + 3 + 0). do 3 eexists. apply exec_wait_complete; eassumption.
    + congruence.
Qed.

(** The log of any run of [wait_for_results], in full. *)
Lemma wait_log_shape self task_id fuel srv log :
  exists o k tail n,
    exec fuel srv log (Client.wait_for_results self task_id) =
      (o, (log ++ rounds self task_id k ++ tail)%list, n) /\
    ((exists j, tail = firstn j (round self task_id)) \/
     tail = [Sent (status_request self task_id)] \/
     tail = [Sent (status_request self task_id); Printed newline] \/
     tail = [Sent (status_request self task_id); Printed newline;
             Sent (results_request self task_id)]).
Proof.
  destruct (loop_shape self task_id fuel srv log) as (k & _ & [(j & L)|(x & m & L & _)]);
    rewrite exec_wait, L.
  - exists None, k, (firstn j (round self task_id)), 0. split; [reflexivity|].
    left. exists j. reflexivity.
  - destruct x as [e|[]].
    + exists (Some (inl e)), k, [Sent (status_request self task_id)], m. auto.
    + destruct m as [|[|m]].
      * exists None, k, [Sent (status_request self task_id)], 0. split; [|auto].
        cbn [firstn]. rewrite app_nil_r. reflexivity.
      * exists None, k, [Sent (status_request self task_id); Printed newline], 0.
        split; [|auto]. cbn [firstn]. rewrite <- !app_assoc. reflexivity.
      * eexists _, k, _, m. split; [rewrite <- !app_assoc; reflexivity|]. auto.
Qed.

Lemma polls_only_round self task_id : Forall (polls_only self task_id) (round self task_id).
Proof.
  unfold round. constructor; [left; reflexivity|]. repeat (constructor; [exact I|]).
  constructor.
Qed.

Lemma polls_only_rounds self task_id k :
  Forall (polls_only self task_id) (rounds self task_id k).
Proof.
  induction k as [|k IH]; cbn [rounds]; [constructor|].
  apply Forall_app. split; [apply polls_only_round | exact IH].
Qed.

Lemma wait_polls_only self task_id fuel srv log :
  exists o suffix n,
    exec fuel srv log (Client.wait_for_results self task_id) = (o, (log ++ suffix)%list, n) /\
    Forall (polls_only self task_id) suffix.
Proof.
  destruct (wait_log_shape self task_id fuel srv log) as (o & k & tail & n & E & T).
  exists o, (rounds self task_id k ++ tail)%list, n. split; [exact E|].
  apply Forall_app. split; [apply polls_only_rounds|].
  destruct T as [(j & ->) | [-> | [-> | ->]]].
  - apply Forall_forall. intros a I. apply in_firstn in I.
    exact (proj1 (Forall_forall _ _) (polls_only_round self task_id) a I).
  - constructor; [left; reflexivity | constructor].
  - constructor; [left; reflexivity|]. constructor; [exact I | constructor].
  - constructor; [left; reflexivity|]. constructor; [exact I|].
    constructor; [right; reflexivity | constructor].
Qed.

(** X9. Whatever the server replies and however long it runs,
    [wait_for_results] sends nothing but its two requests: GETs without a
    body, with the client's token, to the status URL and to the results
    URL. *)
Theorem wait_for_results_only_gets self task_id fuel srv log :
  exists o suffix n,
    exec fuel srv log (Client.wait_for_results self task_id) = (o, (log ++ suffix)%list, n) /\
    Forall (fun a =>
              match a with
              | Sent rq =>
                  meth rq = GET /\ json rq = None /\
                  headers rq = Client.bearer self /\
                  (url rq = Client._baseURL self ++ "/task/" ++ str task_id \/
                   url rq = Client._baseURL self ++ "/task/" ++ str task_id ++
                            "?include=results")
              | _ => True
              end) suffix.
Proof.
  destruct (wait_polls_only self task_id fuel srv log) as (o & suffix & n & E & F).
  exists o, suffix, n. split; [exact E|].
  eapply Forall_impl; [|exact F].
  intros [rq| | |]; cbn [polls_only]; auto.
  intros [-> | ->]; repeat split; auto.
Qed.

Lemma comprehension_first_failure {A B} (f : A -> result B) good bad rest ys e :
  Forall2 (fun x y => f x = inr y) good ys ->
  f bad = inl e ->
  comprehension f (good ++ bad :: rest)%list = inl e.
Proof.
  intros F E. induction F as [|x y good ys Fx _ IH]; cbn [app comprehension].
  - rewrite E. reflexivity.
  - rewrite Fx, IH. reflexivity.
Qed.

Lemma entry_value_inl r e :
  entry_value r = inl e ->
  e = TypeError \/ e = KeyError "result" \/ e = JSONDecodeError.
Proof.
  unfold entry_value.
  destruct r as [| | | | | |d]; cbn [subscript Py.bind]; try (intros E; injection E as <-; auto).
  destruct (lookup "result" d) as [x|]; cbn [Py.bind]; [|intros E; injection E as <-; auto].
  destruct x; cbn [loads]; try (intros E; injection E as <-; auto).
  destruct (json_loads s); [discriminate|]. intros E; injection E as <-; auto.
Qed.

(** X3. One entry that cannot be decoded makes the whole call raise, after
    the results were fetched: the exception is that of the first such entry
    ([TypeError] when the entry is no object or its ['result'] no string,
    [KeyError] when it has no ['result'], [JSONDecodeError] when the string
    is not JSON), whatever the entries after it hold, and the values
    decoded before it are not returned. *)
Theorem wait_for_results_raises_at_first_bad_entry
  self task_id srv log k response good bad rest values e :
  (forall i, i < k ->
     verdict (srv (log ++ rounds self task_id i)%list (status_request self task_id)) =
       inr false) ->
  verdict (srv (log ++ rounds self task_id k)%list (status_request self task_id)) =
    inr true ->
  srv (log ++ rounds self task_id k ++
       [Sent (status_request self task_id); Printed newline])%list
      (results_request self task_id) = Body response ->
  subscript response "results" = inr (VList (good ++ bad :: rest)) ->
  Forall2 (fun entry v => entry_value entry = inr v) good values ->
  entry_value bad = inl e ->
  (forall n,
     exec (5 * k + 3 + n) srv log (Client.wait_for_results self task_id) =
     (Some (inl e),
      (log ++ rounds self task_id k ++
       [Sent (status_request self task_id); Printed newline;
        Sent (results_request self task_id)])%list,
      n)) /\
  (e = TypeError \/ e = KeyError "result" \/ e = JSONDecodeError).
Proof.
  intros P V B L F E. split; [|exact (entry_value_inl _ E)].
  intros n. rewrite (exec_wait_complete self task_id srv log n P V), B.
  cbn [decoded Py.bind]. unfold Client.deserialize. rewrite L. cbn [Py.bind iter].
  change (fun r : value => Py.bind (subscript r "result") loads) with entry_value.
  rewrite (comprehension_first_failure entry_value bad rest F E). reflexivity.
Qed.

(** X4. What the comprehension makes of a ['results'] that is no list of
    entries. Empty, be it a list, an object or a string, it gives the
    empty list. An object or a string that is not empty raises [TypeError]:
    the loop then visits keys or characters, which are strings and take no
    ['result']. [None], a boolean and a number raise [TypeError] as well,
    and a reply without ['results'] raises what the subscript raises. *)
Theorem deserialize_results_of_other_shapes response :
  match subscript response "results" with
  | inl e => Client.deserialize response = inl e
  | inr (VList []) | inr (VDict []) | inr (VStr EmptyString) =>
      Client.deserialize response = inr []
  | inr (VList entries) =>
      Client.deserialize response = comprehension entry_value entries
  | inr _ => Client.deserialize response = inl TypeError
  end.
Proof.
  unfold Client.deserialize.
  destruct (subscript response "results") as [e|results]; [reflexivity|].
  destruct results as [| | | |s|l|d]; try reflexivity.
  - destruct s; reflexivity.
  - destruct l; reflexivity.
  - destruct d as [|[k v] d]; reflexivity.
Qed.

(** [run], step by step. *)
Lemma exec_run host api_path username password collaboration_id fuel srv log :
  exec fuel srv log (run host api_path username password collaboration_id) =
  match fuel with
  | O => (None, log, 0)
  | S fuel1 =>
      match authenticated
              (Client.__init__ host collaboration_id username password api_path)
              (srv log (Client.token_request
                          (Client.__init__ host collaboration_id username password
                             api_path))) with
      | (_, inl e) =>
          (Some (inl e),
           (log ++ [Sent (Client.token_request
                            (Client.__init__ host collaboration_id username password
                               api_path))])%list,
           fuel1)
      | (client, inr _) =>
          exec fuel1 srv
            (log ++ [Sent (Client.token_request
                             (Client.__init__ host collaboration_id username password
                                api_path))])%list
            (pbind (Client.create_task client (task_of host api_path collaboration_id))
               (fun response =>
                  pbind (lift (subscript response "id"))
                    (fun task_id => Client.wait_for_results client task_id)))
      end
  end.
Proof.
  unfold run. rewrite exec_bind.
  destruct fuel as [|fuel]; [rewrite exec_authenticate_O; reflexivity|].
  rewrite exec_authenticate.
  destruct (authenticated _ _) as [client [e|[]]]; [apply exec_Ret | reflexivity].
Qed.

(** [run] after [authenticate]: the submission and the wait. *)
Lemma exec_submit_and_wait client task fuel srv log :
  exec fuel srv log
    (pbind (Client.create_task client task)
       (fun response =>
          pbind (lift (subscript response "id"))
            (fun task_id => Client.wait_for_results client task_id))) =
  match fuel with
  | O => (None, log, 0)
  | S fuel1 =>
      match Py.bind (decoded (srv log (post_request client "/task" task)))
                    (fun response => subscript response "id") with
      | inl e =>
          (Some (inl e), (log ++ [Sent (post_request client "/task" task)])%list, fuel1)
      | inr task_id =>
          exec fuel1 srv (log ++ [Sent (post_request client "/task" task)])%list
            (Client.wait_for_results client task_id)
      end
  end.
Proof.
  rewrite exec_pbind. unfold Client.create_task.
  destruct fuel as [|fuel]; [rewrite exec_post_O; reflexivity|].
  rewrite exec_post.
  destruct (decoded _) as [e|response]; cbn [Py.bind]; [reflexivity|].
  rewrite exec_pbind, exec_lift.
  destruct (subscript response "id"); reflexivity.
Qed.

End Further.

Section Run.
Context `{Runtime}.
Variables (host api_path : string) (username password collaboration_id : value).
Implicit Types (srv : server) (log : list action) (fuel : nat).

Local Abbreviation fresh :=
  (Client.__init__ host collaboration_id username password api_path).
Local Abbreviation token := (Client.token_request fresh).
Local Abbreviation task := (task_of host api_path collaboration_id).
Local Abbreviation the_run := (run host api_path username password collaboration_id).

(** The client that holds the tokens [a] and [b], and the POST that
    submits the task with the access token [a]. *)
Local Abbreviation holding a b :=
  (Client.Make host api_path collaboration_id username password a b).
Local Abbreviation submission a :=
  ({| meth := POST;
      url := ((host ++ api_path) ++ "/task")%string;
      headers := [("Authorization", ("Bearer " ++ str a)%string)];
      json := Some task |}).

(** X5. The steps of [run] put together. When the token reply has both
    tokens, the reply to the submission has an ['id'], the first [k] status
    replies are not complete and the next one is, [run] ends after these
    requests and no others: the token request, one POST of the task to
    [/task] with the access token just received, the polls of the id just
    received, and the results request. It returns what the comprehension
    makes of the results reply. *)
Theorem run_returns_the_results srv log r a b response task_id k :
  srv log token = Body r ->
  subscript r "access_token" = inr a ->
  subscript r "refresh_token" = inr b ->
  srv (log ++ [Sent token])%list (submission a) = Body response ->
  subscript response "id" = inr task_id ->
  (forall i, i < k ->
     verdict
       (srv ((log ++ [Sent token; Sent (submission a)]) ++
             rounds (holding a b) task_id i)%list
            (status_request (holding a b) task_id)) = inr false) ->
  verdict
    (srv ((log ++ [Sent token; Sent (submission a)]) ++
          rounds (holding a b) task_id k)%list
         (status_request (holding a b) task_id)) = inr true ->
  forall n,
    exec (2 + (5 * k + 3 + n)) srv log the_run =
    (Some (Py.bind
             (decoded
                (srv ((log ++ [Sent token; Sent (submission a)]) ++
                      rounds (holding a b) task_id k ++
                      [Sent (status_request (holding a b) task_id);
                       Printed newline])%list
                     (results_request (holding a b) task_id)))
             Client.deserialize),
     ((log ++ [Sent token; Sent (submission a)]) ++
      rounds (holding a b) task_id k ++
      [Sent (status_request (holding a b) task_id);
       Printed newline;
       Sent (results_request (holding a b) task_id)])%list,
     n).
Proof.
  intros R A B S I P V n.
  rewrite exec_run. cbn [Nat.add]. unfold authenticated. rewrite R. cbn [decoded].
  rewrite A, B. rewrite exec_submit_and_wait.
  change (post_request
            (Client.set_refresh_token (Client.set_access_token fresh a) b) "/task" task)
    with (submission a).
  rewrite S. cbn [decoded Py.bind]. rewrite I.
  rewrite <- app_assoc. cbn [app].
  exact (exec_wait_complete (holding a b) task_id srv _ n P V).
Qed.

(** X6. When [authenticate] raises, [run] raises the same exception and
    has sent the token request and nothing else: no task is submitted. *)
Theorem run_raises_when_authenticate_fails srv log client e log' :
  exec 1 srv log (Client.authenticate fresh) = (Some (client, inl e), log', 0) ->
  forall n, exec (1 + n) srv log the_run = (Some (inl e), (log ++ [Sent token])%list, n).
Proof.
  rewrite exec_authenticate. intros E n. injection E as E _.
  rewrite exec_run. cbn [Nat.add]. rewrite E. reflexivity.
Qed.

(** X7. When [authenticate] succeeds and the submission fails, because
    [create_task] raises or because what it returns has no ['id'], [run]
    raises that exception after its two POSTs and never polls. *)
Theorem run_raises_when_submission_fails srv log client log1 returned log2 e :
  exec 1 srv log (Client.authenticate fresh) = (Some (client, inr tt), log1, 0) ->
  exec 1 srv log1 (Client.create_task client task) = (Some returned, log2, 0) ->
  Py.bind returned (fun response => subscript response "id") = inl e ->
  log2 = (log ++ [Sent token; Sent (post_request client "/task" task)])%list /\
  forall n, exec (2 + n) srv log the_run = (Some (inl e), log2, n).
Proof.
  rewrite exec_authenticate. intros E. injection E as E <-.
  unfold Client.create_task. rewrite exec_post. intros E'. injection E' as <- <-.
  intros I. rewrite <- app_assoc. cbn [app]. split; [reflexivity|].
  intros n. rewrite exec_run. cbn [Nat.add]. rewrite E.
  rewrite exec_submit_and_wait, I, <- app_assoc. reflexivity.
Qed.

(** X10. Whatever the server replies and however long it runs, [run]
    sends the token request first, then at most one POST, the task to
    [/task], and after it only the two GETs of [wait_for_results] for the
    id the reply to that POST holds: it authenticates once, submits once
    and polls no other task. *)
Theorem run_submits_once fuel srv log :
  exists o suffix n,
    exec fuel srv log the_run = (o, (log ++ suffix)%list, n) /\
    (suffix = [] \/
     suffix = [Sent token] \/
     exists client rest,
       exec 1 srv log (Client.authenticate fresh) =
         (Some (client, inr tt), (log ++ [Sent token])%list, 0) /\
       suffix = Sent token :: Sent (post_request client "/task" task) :: rest /\
       (rest = [] \/
        exists response task_id,
          srv (log ++ [Sent token])%list (post_request client "/task" task) =
            Body response /\
          subscript response "id" = inr task_id /\
          Forall (polls_only client task_id) rest)).
Proof.
  rewrite exec_run.
  destruct fuel as [|fuel].
  { exists None, [], 0. rewrite app_nil_r. auto. }
  destruct (authenticated fresh (srv log token)) as [client [e|[]]] eqn:Au.
  { eexists _, [Sent token], _. split; [reflexivity|]. auto. }
  rewrite exec_submit_and_wait.
  destruct fuel as [|fuel].
  { eexists _, [Sent token], _. split; [reflexivity|]. auto. }
  assert (Ok : exec 1 srv log (Client.authenticate fresh) =
               (Some (client, inr tt), (log ++ [Sent token])%list, 0)).
  { rewrite exec_authenticate, Au. reflexivity. }
  destruct (srv (log ++ [Sent token])%list (post_request client "/task" task))
    as [response| |] eqn:S; cbn [decoded Py.bind].
  2, 3: eexists _, [Sent token; Sent (post_request client "/task" task)], _;
        (split; [rewrite <- app_assoc; reflexivity|]);
        right; right; exists client, []; auto.
  destruct (subscript response "id") as [e|task_id] eqn:I.
  { eexists _, [Sent token; Sent (post_request client "/task" task)], _.
    split; [rewrite <- app_assoc; reflexivity|].
    right; right. exists client, []. auto. }
  destruct (wait_polls_only client task_id fuel srv
              ((log ++ [Sent token]) ++ [Sent (post_request client "/task" task)])%list)
    as (o & rest & n & E & F).
  rewrite E.
  exists o, (Sent token :: Sent (post_request client "/task" task) :: rest), n.
  split; [rewrite <- !app_assoc; reflexivity|].
  right; right. exists client, rest. split; [exact Ok|]. split; [reflexivity|].
  right. exists response, task_id. auto.
Qed.

End Run.

Section Accounting.
Context `{Runtime}.
Variables (self : Client.t) (task_id : value).
Implicit Types (srv : server) (log : list action) (fuel : nat).

Local Abbreviation status := (status_request self task_id).
Local Abbreviation results := (results_request self task_id).
Local Abbreviation polls l := (count_sent_to (url status) l).

Lemma stdout_app l1 l2 : stdout (l1 ++ l2)%list = stdout l1 ++ stdout l2.
Proof.
  induction l1 as [|a l1 IH]; [reflexivity|].
  destruct a; cbn [app stdout]; rewrite IH; [reflexivity| |reflexivity|reflexivity].
  symmetry. apply append_assoc.
Qed.

Lemma slept_app l1 l2 : slept (l1 ++ l2)%list = (slept l1 + slept l2)%Z.
Proof.
  induction l1 as [|a l1 IH]; [reflexivity|].
  destruct a; cbn [app slept]; rewrite IH; lia.
Qed.

Lemma count_sent_to_app u l1 l2 :
  count_sent_to u (l1 ++ l2)%list = count_sent_to u l1 + count_sent_to u l2.
Proof. unfold count_sent_to. rewrite filter_app, length_app. reflexivity. Qed.

Lemma stdout_rounds k : stdout (rounds self task_id k) = dots k.
Proof.
  induction k as [|k IH]; [reflexivity|].
  cbn [rounds]. rewrite stdout_app, IH. reflexivity.
Qed.

Lemma slept_rounds k : slept (rounds self task_id k) = (5 * Z.of_nat k)%Z.
Proof.
  induction k as [|k IH]; [reflexivity|].
  cbn [rounds]. rewrite slept_app, IH. cbn [round slept]. lia.
Qed.

Lemma dots_length k : String.length (dots k) = k.
Proof. induction k as [|k IH]; cbn; congruence. Qed.

Lemma polls_status_then l :
  polls (Sent status :: l) = S (polls l).
Proof. unfold count_sent_to. cbn [filter sent_to]. rewrite String.eqb_refl. reflexivity. Qed.

Lemma polls_results_then l :
  polls (Sent results :: l) = polls l.
Proof.
  unfold count_sent_to. cbn [filter sent_to].
  destruct (String.eqb_spec (url results) (url status)) as [E|_]; [|reflexivity].
  destruct (results_url_neq_status self task_id E).
Qed.

(** X8. What the user sees of [wait_for_results]. A call that finds the
    task complete at its poll number [k + 1] has written [k] dots and a
    newline, has slept [5 * k] seconds, and has sent [k + 1] status
    requests: a dot, a flush and five seconds of sleep after each poll that
    was not complete, none after the last. And in any run, cut short or
    not, the seconds slept are at most five per status request and the
    characters written at most one per status request. *)
Theorem wait_for_results_dots_and_sleeps srv log :
  (forall k,
     (forall i, i < k ->
        verdict (srv (log ++ rounds self task_id i)%list status) = inr false) ->
     verdict (srv (log ++ rounds self task_id k)%list status) = inr true ->
     forall n,
     exists o suffix,
       exec (5 * k + 3 + n) srv log (Client.wait_for_results self task_id) =
         (Some o, (log ++ suffix)%list, n) /\
       stdout suffix = dots k ++ newline /\
       slept suffix = (5 * Z.of_nat k)%Z /\
       polls suffix = S k) /\
  (forall fuel,
   exists o suffix n,
     exec fuel srv log (Client.wait_for_results self task_id) =
       (o, (log ++ suffix)%list, n) /\
     (slept suffix <= 5 * Z.of_nat (polls suffix))%Z /\
     String.length (stdout suffix) <= polls suffix).
Proof.
  split.
  - intros k P V n. eexists _, _. split; [apply exec_wait_complete; assumption|].
    rewrite stdout_app, slept_app, count_sent_to_app, stdout_rounds, slept_rounds,
      count_status_rounds, polls_status_then.
    cbn [stdout slept]. change (polls [Printed newline; Sent results])
      with (polls ([Printed newline] ++ Sent results :: [])%list).
    rewrite count_sent_to_app, polls_results_then.
    split; [reflexivity|]. split; [lia|]. cbn. lia.
  - intros fuel.
    destruct (wait_log_shape self task_id fuel srv log) as (o & k & tail & n & E & T).
    exists o, (rounds self task_id k ++ tail)%list, n. split; [exact E|].
    rewrite stdout_app, slept_app, count_sent_to_app, stdout_rounds, slept_rounds,
      count_status_rounds, append_length, dots_length.
    assert (B : (slept tail <= 5 * Z.of_nat (polls tail))%Z /\
                String.length (stdout tail) <= polls tail).
    { destruct T as [(j & ->) | [-> | [-> | ->]]].
      - unfold round. destruct j as [|[|[|[|j]]]]; cbn [firstn];
          rewrite ?firstn_nil, ?polls_status_then; cbn; lia.
      - rewrite polls_status_then. cbn. lia.
      - rewrite polls_status_then. cbn. lia.
      - rewrite polls_status_then. cbn [stdout slept].
        change (polls [Printed newline; Sent results])
          with (polls ([Printed newline] ++ Sent results :: [])%list).
        rewrite count_sent_to_app, polls_results_then. cbn. lia. }
    destruct B as [B1 B2]. split; lia.
Qed.

End Accounting.

(** ** The properties at work on examples *)

Section Examples.
Local Existing Instance literals.

Local Abbreviation status := (status_request demo_client (VInt 5)).
Local Abbreviation results := (results_request demo_client (VInt 5)).

(** A whole run: authenticate, submit, two polls that find the task not
    complete, one that finds it complete, the results. *)
Example run_on_demo_server :
  exec 15 demo_server [] (run "http://x" "/api" (VStr "u") (VStr "p") (VInt 1)) =
  (Some (inr [VInt 1; VNone; VInt (-20)]),
   [Sent (Client.token_request demo_client);
    Sent {| meth := POST; url := "http://x/api/task";
            headers := [("Authorization", "Bearer A")];
            json := Some (task_of "http://x" "/api" (VInt 1)) |};
    Sent {| meth := GET; url := "http://x/api/task/5";
            headers := [("Authorization", "Bearer A")]; json := None |};
    Printed "."; Flushed; Slept 5;
    Sent {| meth := GET; url := "http://x/api/task/5";
            headers := [("Authorization", "Bearer A")]; json := None |};
    Printed "."; Flushed; Slept 5;
    Sent {| meth := GET; url := "http://x/api/task/5";
            headers := [("Authorization", "Bearer A")]; json := None |};
    Printed newline;
    Sent {| meth := GET; url := "http://x/api/task/5?include=results";
            headers := [("Authorization", "Bearer A")]; json := None |}],
   0).
Proof. vm_compute. reflexivity. Qed.

(** With one unit of fuel less the same run is still waiting for the
    results. *)
Example run_on_demo_server_short :
  fst (fst (exec 14 demo_server []
              (run "http://x" "/api" (VStr "u") (VStr "p") (VInt 1)))) = None.
Proof. vm_compute. reflexivity. Qed.

Lemma demo_pending i :
  i < 3 ->
  verdict (demo_server ([] ++ rounds demo_client (VInt 5) i)%list status) = inr false.
Proof. intros Hi. destruct i as [|[|[|i]]]; [reflexivity..|lia]. Defined.

(** C1 on the example server: three polls find the task not complete, the
    fourth finds it complete, and the results are fetched once. *)
Lemma wait_for_results_polls_until_complete_witness :
  exec 18 demo_server [] (Client.wait_for_results demo_client (VInt 5)) =
  (Some (inr [VInt 1; VNone; VInt (-20)]),
   ([] ++ rounds demo_client (VInt 5) 3 ++
    [Sent status; Printed newline; Sent results])%list,
   0).
Proof.
  exact (proj2 (proj2 (wait_for_results_polls_until_complete
                         demo_client (VInt 5) demo_server []))
               3 demo_pending eq_refl 0).
Defined.

(** C3 on the example server: three entries, three values, same order. *)
Lemma wait_for_results_deserializes_in_order_witness :
  exec 18 demo_server [] (Client.wait_for_results demo_client (VInt 5)) =
    (Some (inr [VInt 1; VNone; VInt (-20)]),
     ([] ++ rounds demo_client (VInt 5) 3 ++
      [Sent status; Printed newline; Sent results])%list,
     0) /\
  Client.deserialize
    (VDict [("results",
             VList [VDict [("result", VStr "1")];
                    VDict [("result", VStr "null")];
                    VDict [("result", VStr "-20")]])]) =
    inr [VInt 1; VNone; VInt (-20)] /\
  List.length [VInt 1; VNone; VInt (-20)] =
  List.length [VDict [("result", VStr "1")];
               VDict [("result", VStr "null")];
               VDict [("result", VStr "-20")]].
Proof.
  destruct (@wait_for_results_deserializes_in_order literals
              demo_client (VInt 5) demo_server [] 3
              (VDict [("results",
                       VList [VDict [("result", VStr "1")];
                              VDict [("result", VStr "null")];
                              VDict [("result", VStr "-20")]])])
              [VDict [("result", VStr "1")];
               VDict [("result", VStr "null")];
               VDict [("result", VStr "-20")]]
              [VInt 1; VNone; VInt (-20)]
              demo_pending eq_refl eq_refl eq_refl) as (E & D & L).
  - repeat constructor; eexists; split; reflexivity.
  - split; [exact (E 0) | split; [exact D | exact L]].
Defined.

(** C5 on a server that never reports the task complete. *)
Lemma wait_for_results_polls_forever_witness :
  (exists suffix,
     exec 7 idle_server [] (Client.wait_for_results demo_client (VInt 5)) =
       (None, ([] ++ suffix)%list, 0) /\
     count_sent_to (url results) suffix = 0) /\
  (exists fuel suffix,
     exec fuel idle_server [] (Client.wait_for_results demo_client (VInt 5)) =
       (None, ([] ++ suffix)%list, 0) /\
     2 < count_sent_to (url status) suffix).
Proof.
  destruct (@wait_for_results_polls_forever literals demo_client (VInt 5) idle_server []
              (fun _ => eq_refl)) as (N & M).
  split; [exact (N 7) | exact (M 2)].
Defined.

(** C7 on the example server. *)
Lemma authenticate_posts_credentials_and_stores_tokens_witness :
  exec 1 demo_server [] (Client.authenticate demo_client) =
  (Some (Client.Make "http://x" "/api" (VInt 1) (VStr "u") (VStr "p") (VStr "A") (VStr "B"),
         inr tt),
   [Sent {| meth := POST; url := "http://x/api/token/user"; headers := [];
            json := Some (VDict [("username", VStr "u"); ("password", VStr "p")]) |}],
   0).
Proof.
  destruct (authenticate_posts_credentials_and_stores_tokens
              demo_client 0 demo_server []) as (_ & self' & outcome & E & S & _).
  destruct (S (VDict [("access_token", VStr "A"); ("refresh_token", VStr "B")])
              (VStr "A") (VStr "B") eq_refl eq_refl eq_refl) as [O C].
  rewrite O, C in E. exact E.
Defined.

(** C9 on a call with two arguments. *)
Lemma main_raises_before_any_request_witness :
  exec 5 demo_server [] (call_run ["http://x"; "/api"]) = (Some (inl TypeError), [], 5).
Proof.
  refine (proj2 (proj2 (@main_raises_before_any_request literals 5 demo_server []))
            ["http://x"; "/api"] _).
  cbn. lia.
Defined.




(** C10 on a client that made two calls before. *)
Lemma get_and_post_send_bearer_none_before_authenticate_witness :
  fst (fst (exec 9 idle_server []
              (session demo_client [Get "/task/5"; CreateTask (VDict [])]))) =
  Some demo_client.
Proof.
  unfold demo_client.
  generalize (proj2 (proj2 (proj2
    (@get_and_post_send_bearer_none_before_authenticate literals
       "http://x" (VInt 1) (VStr "u") (VStr "p") "/api")))
    [Get "/task/5"; CreateTask (VDict [])] 9 idle_server []).
  destruct (exec 9 idle_server []
              (session (Client.__init__ "http://x" (VInt 1) (VStr "u") (VStr "p") "/api")
                 [Get "/task/5"; CreateTask (VDict [])]))
    as [[[self'|] log'] n] eqn:E.
  - intros K. cbn [fst]. f_equal. apply (K self' log' n); [|reflexivity].
    repeat constructor; discriminate.
  - vm_compute in E. discriminate E.
Defined.

End Examples.

(** ** The further properties on examples *)

Section FurtherExamples.
Local Existing Instance literals.

Local Abbreviation status := (status_request demo_client (VInt 5)).
Local Abbreviation results := (results_request demo_client (VInt 5)).

(** X2: the second status reply has no ['complete']. *)
Lemma wait_for_results_raises_at_failed_poll_witness :
  exec 6 broken_server [] (Client.wait_for_results demo_client (VInt 5)) =
  (Some (inl (KeyError "complete")),
   ([] ++ rounds demo_client (VInt 5) 1 ++ [Sent status])%list, 0).
Proof.
  refine (proj1 (@wait_for_results_raises_at_failed_poll literals demo_client (VInt 5)
                   broken_server [] 1 (KeyError "complete") _ eq_refl) 0).
  intros i Hi. destruct i as [|i]; [reflexivity | lia].
Defined.

(** X3: the second of three results is not JSON. *)
Lemma wait_for_results_raises_at_first_bad_entry_witness :
  exec 3 garbled_server [] (Client.wait_for_results demo_client (VInt 5)) =
  (Some (inl JSONDecodeError),
   ([] ++ rounds demo_client (VInt 5) 0 ++
    [Sent status; Printed newline; Sent results])%list, 0).
Proof.
  refine (proj1 (@wait_for_results_raises_at_first_bad_entry literals demo_client (VInt 5)
                   garbled_server [] 0
                   (VDict [("results",
                            VList [VDict [("result", VStr "1")];
                                   VDict [("result", VStr "oops")];
                                   VDict [("result", VStr "2")]])])
                   [VDict [("result", VStr "1")]]
                   (VDict [("result", VStr "oops")])
                   [VDict [("result", VStr "2")]]
                   [VInt 1] JSONDecodeError _ eq_refl eq_refl eq_refl _ eq_refl) 0).
  - intros i Hi. lia.
  - repeat constructor.
Defined.

(** X5: the whole run against the example server. *)
Lemma run_returns_the_results_witness :
  exec 15 demo_server [] (run "http://x" "/api" (VStr "u") (VStr "p") (VInt 1)) =
  (Some (inr [VInt 1; VNone; VInt (-20)]),
   [Sent (Client.token_request demo_client);
    Sent {| meth := POST; url := "http://x/api/task";
            headers := [("Authorization", "Bearer A")];
            json := Some (task_of "http://x" "/api" (VInt 1)) |};
    Sent {| meth := GET; url := "http://x/api/task/5";
            headers := [("Authorization", "Bearer A")]; json := None |};
    Printed "."; Flushed; Slept 5;
    Sent {| meth := GET; url := "http://x/api/task/5";
            headers := [("Authorization", "Bearer A")]; json := None |};
    Printed "."; Flushed; Slept 5;
    Sent {| meth := GET; url := "http://x/api/task/5";
            headers := [("Authorization", "Bearer A")]; json := None |};
    Printed newline;
    Sent {| meth := GET; url := "http://x/api/task/5?include=results";
            headers := [("Authorization", "Bearer A")]; json := None |}],
   0).
Proof.
  refine (@run_returns_the_results literals "http://x" "/api" (VStr "u") (VStr "p") (VInt 1)
            demo_server []
            (VDict [("access_token", VStr "A"); ("refresh_token", VStr "B")])
            (VStr "A") (VStr "B") (VDict [("id", VInt 5)]) (VInt 5) 2
            eq_refl eq_refl eq_refl eq_refl eq_refl _ eq_refl 0).
  intros i Hi. destruct i as [|[|i]]; [reflexivity | reflexivity | lia].
Defined.

(** X6: the token reply has no ['access_token']. *)
Lemma run_raises_when_authenticate_fails_witness :
  exec 1 idle_server [] (run "http://x" "/api" (VStr "u") (VStr "p") (VInt 1)) =
  (Some (inl (KeyError "access_token")), [Sent (Client.token_request demo_client)], 0).
Proof.
  exact (@run_raises_when_authenticate_fails literals
           "http://x" "/api" (VStr "u") (VStr "p") (VInt 1)
           idle_server [] demo_client (KeyError "access_token")
           [Sent (Client.token_request demo_client)] eq_refl 0).
Defined.

(** X7: the reply to the submission has no ['id']. *)
Lemma run_raises_when_submission_fails_witness :
  exec 2 stale_server [] (run "http://x" "/api" (VStr "u") (VStr "p") (VInt 1)) =
  (Some (inl (KeyError "id")),
   [Sent (Client.token_request demo_client);
    Sent {| meth := POST; url := "http://x/api/task";
            headers := [("Authorization", "Bearer A")];
            json := Some (task_of "http://x" "/api" (VInt 1)) |}],
   0).
Proof.
  exact (proj2 (@run_raises_when_submission_fails literals
                  "http://x" "/api" (VStr "u") (VStr "p") (VInt 1)
                  stale_server []
                  (Client.Make "http://x" "/api" (VInt 1) (VStr "u") (VStr "p")
                     (VStr "A") (VStr "R"))
                  [Sent (Client.token_request demo_client)]
                  (inr (VDict [("access_token", VStr "B")]))
                  [Sent (Client.token_request demo_client);
                   Sent {| meth := POST; url := "http://x/api/task";
                           headers := [("Authorization", "Bearer A")];
                           json := Some (task_of "http://x" "/api" (VInt 1)) |}]
                  (KeyError "id") eq_refl eq_refl eq_refl) 0).
Defined.

(** X8: three dots, a newline and fifteen seconds against the example
    server. *)
Lemma wait_for_results_dots_and_sleeps_witness :
  exists o suffix,
    exec 18 demo_server [] (Client.wait_for_results demo_client (VInt 5)) =
      (Some o, ([] ++ suffix)%list, 0) /\
    stdout suffix = dots 3 ++ newline /\
    slept suffix = 15%Z /\
    count_sent_to (url status) suffix = 4.
Proof.
  exact (proj1 (@wait_for_results_dots_and_sleeps literals demo_client (VInt 5)
                  demo_server []) 3 demo_pending eq_refl 0).
Defined.

End FurtherExamples.
